(** * Vector-search MCP server: chunking, catalog and index coordinator

    A shallow embedding of the [VectorStore] class of the server
    ([index.ts], the hnswlib-backed version) and of the chunking helper
    duplicated in the test-suite, together with the properties of the
    indexing and retrieval pipeline; then of the path validation, the text
    extraction and the tools of the server, and of [addDocument] and
    [clear] of the version of the store on the FAISS index.

    Conventions.
    - A JavaScript string is a [string]; every character stands for one
      UTF-16 code unit below 256, so [String.length] is [.length].
    - A JavaScript number that is used as a size or index ([documents.length],
      [Document.id], [chunkId], an ANN label) is a [nat]; [maxChunkSize] is a
      [Z] (an integer of either sign); distances, scores, thresholds,
      [numResults] and vector components are IEEE-754 binary64 values, the
      kernel's [float].
    - [fileTypes : Record<string, number>] is a [gmap string nat].
    - The embedding model, the ANN index and [path.extname] are external
      libraries: the last two are the fields of the [Externals] class. *)

From Stdlib Require Import ZArith Ascii String List Lia Bool.
From Stdlib Require Import Floats.
From stdpp Require Import base option list strings gmap.

#[local] Open Scope string_scope.

(* ===================================================================== *)
(** ** Strings *)
(* ===================================================================== *)

Module Js.

Definition LF : ascii := "010"%char.

(** The double newline that joins paragraphs of one chunk. *)
Definition sep : string := String LF (String LF "").

(** Truthiness of a string: only [''] is falsy. *)
Definition truthy (s : string) : bool :=
  match s with
  | EmptyString => false
  | String _ _ => true
  end.

(** The class [\s] restricted to code units below 256:
    TAB, LF, VT, FF, CR, SPACE and NBSP. *)
Definition is_space (c : ascii) : bool :=
  let n := nat_of_ascii c in
  ((9 <=? n)%nat && (n <=? 13)%nat) || (n =? 32)%nat || (n =? 160)%nat.

Definition is_LF (c : ascii) : bool := Ascii.eqb c LF.

(** [s.substring(0, m)] for an integer [m]: a negative [m] counts as 0 and
    an [m] past the end as the length. *)
Definition substring0 (m : Z) (s : string) : string :=
  String.substring 0 (Z.to_nat m) s.

(** *** [String.prototype.split] with the pattern [/\n\s*\n/]

    A match of [\n\s*\n] at a position needs a LF there; [\s*] is greedy
    and LF is itself in [\s], so the match ends at the last LF of the
    longest run of white space that follows, and there is no match when
    that run holds no LF.  [tail_len t] is, for the text [t] after the
    first LF, the number of characters of [t] the match covers. *)
Fixpoint tail_len (t : string) : option nat :=
  match t with
  | EmptyString => None
  | String c t' =>
      if is_space c then
        match tail_len t' with
        | Some n => Some (S n)
        | None => if is_LF c then Some 1%nat else None
        end
      else None
  end.

(** Length of the match of [/\n\s*\n/] anchored at the head of [s]. *)
Definition match_len (s : string) : option nat :=
  match s with
  | String c t => if is_LF c then option_map S (tail_len t) else None
  | EmptyString => None
  end.

(** The split loop of ECMAScript (SplitMatcher at every position from left
    to right; the pattern never matches the empty string, so every match
    closes a piece).  [skip] counts the characters of the current match
    still to be passed over, [cur] is the piece being collected. *)
Fixpoint split_go (skip : nat) (cur : string) (s : string) : list string :=
  match s with
  | EmptyString => [cur]
  | String c t =>
      match skip with
      | S k => split_go k cur t
      | O =>
          match match_len s with
          | Some n => cur :: split_go (Nat.pred n) "" t
          | None => split_go 0 (cur ++ String c "") t
          end
      end
  end.

Definition split_paragraphs (text : string) : list string :=
  split_go 0 "" text.

(** [String.prototype.toLowerCase] on code units below 256: A-Z and the
    Latin-1 capitals other than the multiplication sign move up by 32. *)
Definition lower (c : ascii) : ascii :=
  let n := nat_of_ascii c in
  if ((65 <=? n)%nat && (n <=? 90)%nat)
     || ((192 <=? n)%nat && (n <=? 222)%nat && negb (n =? 215)%nat)
  then ascii_of_nat (n + 32) else c.

Fixpoint toLowerCase (s : string) : string :=
  match s with
  | EmptyString => EmptyString
  | String c t => String (lower c) (toLowerCase t)
  end.

End Js.

(* ===================================================================== *)
(** ** Chunker *)
(* ===================================================================== *)

Module Chunker.
Import Js.

(** The loop state: the completed [chunks] and the buffer [currentChunk]. *)
Record acc := Acc { chunks : list string; currentChunk : string }.

(** One turn of [for (const paragraph of paragraphs)]. *)
Definition step (maxChunkSize : Z) (a : acc) (paragraph : string) : acc :=
  if (Z.of_nat (String.length (currentChunk a ++ paragraph)) <=? maxChunkSize)%Z
  then
    Acc (chunks a)
        (currentChunk a
           ++ (if truthy (currentChunk a) then sep else "") ++ paragraph)
  else if truthy (currentChunk a)
  then Acc (chunks a ++ [currentChunk a]) paragraph
  else Acc (chunks a ++ [substring0 maxChunkSize paragraph]) "".

Definition loop (maxChunkSize : Z) (paragraphs : list string) : acc :=
  fold_left (step maxChunkSize) paragraphs (Acc [] "").

(** The final flush of a non-empty buffer. *)
Definition flush (a : acc) : list string :=
  if truthy (currentChunk a) then chunks a ++ [currentChunk a] else chunks a.

(** [VectorStore.chunkText] of the server: returns [chunks]. *)
Definition chunkText (text : string) (maxChunkSize : Z) : list string :=
  flush (loop maxChunkSize (split_paragraphs text)).

(** [chunkText] of the test-suite (the stand-alone helper and the method of
    the mock store): the same loop, but
    [return chunks.length > 0 ? chunks : [text]]. *)
Definition chunkText_test (text : string) (maxChunkSize : Z) : list string :=
  let chunks := flush (loop maxChunkSize (split_paragraphs text)) in
  if (0 <? List.length chunks)%nat then chunks else [text].

(** The default of the parameter. *)
Definition defaultMaxChunkSize : Z := 512%Z.

End Chunker.

(* ===================================================================== *)
(** ** Numbers *)
(* ===================================================================== *)

Module Num.

(** A length as a number; array lengths are below 2^32, so the conversion
    is exact. *)
Definition of_nat (n : nat) : float :=
  PrimFloat.of_uint63 (Uint63.of_Z (Z.of_nat n)).

Definition is_neg_zero (x : float) : bool :=
  match PrimFloat.classify x with
  | NZero => true
  | _ => false
  end.

(** [Math.min(a, b)]: NaN when either is NaN, and -0 below +0. *)
Definition Math_min (a b : float) : float :=
  if PrimFloat.is_nan a || PrimFloat.is_nan b then PrimFloat.nan
  else if PrimFloat.ltb a b then a
  else if PrimFloat.ltb b a then b
  else if is_neg_zero a then a else b.

(** [a >= b] on numbers: false as soon as one side is NaN. *)
Definition geb (a b : float) : bool := PrimFloat.leb b a.

(** [1 / (1 + distance)]. *)
Definition similarity (distance : float) : float :=
  PrimFloat.div 1%float (PrimFloat.add 1%float distance).

(** The same with [distance] read from an array: a missing entry is
    [undefined], and [1 + undefined] is NaN. *)
Definition similarity_at (distance : option float) : float :=
  match distance with
  | Some d => similarity d
  | None => similarity PrimFloat.nan
  end.

End Num.

(* ===================================================================== *)
(** ** External libraries *)
(* ===================================================================== *)

(** What [searchKnn] returns: [{ neighbors, distances }]. *)
Record KnnResult := Knn { neighbors : list nat; distances : list float }.

(** The libraries the store calls: [path.extname] of Node and the
    [HierarchicalNSW] class of hnswlib-node.  A call that throws
    yields [None]. *)
Class Externals := {
  extname : string -> string;
  hnsw : Type;
  (** [new hnsw.HierarchicalNSW('l2', dimension)] then [initIndex(maxElements)]. *)
  hnsw_new : forall (dimension maxElements : nat), hnsw;
  (** [index.addPoint(point, label)]. *)
  addPoint : hnsw -> list float -> nat -> option hnsw;
  (** [index.searchKnn(query, k)]. *)
  searchKnn : hnsw -> list float -> float -> option KnnResult;
}.

(** The contract of the ANN library that the coordinator relies on: the
    labels held by an index are those added since it was created, and a
    query answers with labels the index holds. *)
Class HnswContract `{Externals} := {
  labels : hnsw -> gset nat;
  labels_new : forall d m, labels (hnsw_new d m) = ∅;
  labels_addPoint : forall a v l a',
    addPoint a v l = Some a' -> labels a' = {[ l ]} ∪ labels a;
  searchKnn_labels : forall a q k r,
    searchKnn a q k = Some r -> forall n, n ∈ neighbors r -> n ∈ labels a;
}.

(* ===================================================================== *)
(** ** The vector store *)
(* ===================================================================== *)

(** [interface Document]. *)
Record Document := Doc {
  id : nat;
  file : string;
  chunkId : nat;
  text : string;
  vector : option (list float);
}.

(** A loaded feature-extraction pipeline: from a text to the embedding, or
    [None] when the call throws.  The pipeline is taken to answer the same
    text the same way every time. *)
Definition Pipeline : Type := string -> option (list float).

Inductive error : Type :=
  | EmbeddingFailed   (** [new Error('Failed to generate embedding for query')] *)
  | LibraryError.     (** an exception out of the ANN library *)

(** How a call of an [async] method ends.  [Waiting]: the promise of
    [waitForInitialization] is not resolved as long as [initialized] is
    false. *)
Inductive outcome (A : Type) : Type :=
  | Returned (a : A)
  | Threw (e : error)
  | Waiting.
Arguments Returned {A} a.
Arguments Threw {A} e.
Arguments Waiting {A}.

(** An element of the array [search] resolves to; [document] is
    [this.documents[idx]], [None] for [undefined]. *)
Record SearchResult := Res { score : float; document : option Document }.

Record Stats := MkStats { documentCount : nat; statsFileTypes : gmap string nat }.

Module Store.
Section WithExternals.
Context `{Ext : Externals}.

(** The fields of [class VectorStore]. *)
Record t := Mk {
  embeddingModel : option Pipeline;
  documents : list Document;
  index : option hnsw;
  initialized : bool;
  dimension : nat;
  fileTypes : gmap string nat;
}.

Definition with_documents (docs : list Document) (st : t) : t :=
  Mk (embeddingModel st) docs (index st) (initialized st) (dimension st)
     (fileTypes st).

Definition with_index (ix : option hnsw) (st : t) : t :=
  Mk (embeddingModel st) (documents st) ix (initialized st) (dimension st)
     (fileTypes st).

Definition with_fileTypes (ft : gmap string nat) (st : t) : t :=
  Mk (embeddingModel st) (documents st) (index st) (initialized st)
     (dimension st) ft.

(** The field initialisers. *)
Definition constructed : t := Mk None [] None false 384 ∅.

(** [init()]: [loaded] is what [pipeline(...)] resolved to, [None] when it
    was rejected; the creation of the index is taken not to throw. *)
Definition init (loaded : option Pipeline) (st : t) : t :=
  match loaded with
  | Some m =>
      Mk (Some m) (documents st) (Some (hnsw_new (dimension st) 1000)) true
         (dimension st) (fileTypes st)
  | None =>
      Mk (embeddingModel st) (documents st) (index st) false (dimension st)
         (fileTypes st)
  end.

(** A store whose initialisation succeeded with the model [m]. *)
Definition ready (m : Pipeline) : t := init (Some m) constructed.

Definition generateEmbedding (st : t) (text : string) : option (list float) :=
  match embeddingModel st with
  | None => None
  | Some model => model text
  end.

(** The body of [for (let i = 0; i < chunks.length; i++)], from turn [i]
    on, over the chunks still to come. *)
Fixpoint addChunks (st : t) (file : string) (i : nat) (chunks : list string)
  : t * outcome unit :=
  match chunks with
  | [] => (st, Returned tt)
  | chunk :: rest =>
      let n := List.length (documents st) in
      match generateEmbedding st chunk with
      | Some embedding =>
          let doc := Doc n file i chunk (Some embedding) in
          match index st with
          | Some ix =>
              match addPoint ix embedding n with
              | Some ix' =>
                  addChunks
                    (with_documents (documents st ++ [doc])
                       (with_index (Some ix') st))
                    file (S i) rest
              | None => (st, Threw LibraryError)
              end
          | None =>
              addChunks (with_documents (documents st ++ [doc]) st)
                file (S i) rest
          end
      | None => addChunks st file (S i) rest
      end
  end.

(** [(this.fileTypes[fileExt] || 0) + 1]. *)
Definition bump (fileExt : string) (ft : gmap string nat) : gmap string nat :=
  <[ fileExt := (default 0%nat (ft !! fileExt) + 1)%nat ]> ft.

Definition addDocument (st : t) (file text : string) : t * outcome unit :=
  if initialized st then
    let fileExt := Js.toLowerCase (extname file) in
    let st1 := with_fileTypes (bump fileExt (fileTypes st)) st in
    addChunks st1 file 0 (Chunker.chunkText text Chunker.defaultMaxChunkSize)
  else (st, Waiting).

(** The callback of [searchResults.neighbors.map]. *)
Definition hydrate (st : t) (r : KnnResult) (i idx : nat) : SearchResult :=
  Res (Num.similarity_at (distances r !! i)) (documents st !! idx).

Definition search (st : t) (query : string) (numResults threshold : float)
  : outcome (list SearchResult) :=
  if initialized st then
    match index st with
    | None => Returned []
    | Some ix =>
        if (List.length (documents st) =? 0)%nat then Returned []
        else
          match generateEmbedding st query with
          | None => Threw EmbeddingFailed
          | Some queryEmbedding =>
              let k :=
                Num.Math_min numResults
                  (Num.of_nat (List.length (documents st))) in
              match searchKnn ix queryEmbedding k with
              | None => Threw LibraryError
              | Some searchResults =>
                  Returned
                    (List.filter (fun result => Num.geb (score result) threshold)
                       (imap (hydrate st searchResults)
                          (neighbors searchResults)))
              end
          end
    end
  else Waiting.

Definition clear (st : t) : t :=
  Mk (embeddingModel st) []
     (if initialized st then Some (hnsw_new (dimension st) 1000)
      else index st)
     (initialized st) (dimension st) ∅.

Definition getStats (st : t) : Stats :=
  MkStats (List.length (documents st)) (fileTypes st).

(** [new Set<string>()] filled in document order, then [Array.from]. *)
Definition getIndexedFiles (st : t) : list string :=
  fold_left
    (fun uniqueFiles doc =>
       if decide (file doc ∈ uniqueFiles) then uniqueFiles
       else (uniqueFiles ++ [file doc])%list)
    (documents st) [].

(** A run of [addDocument] calls, one after the other; a call that throws
    leaves the store as it was at the throw and the next call goes on from
    there. *)
Definition addDocuments (st : t) (calls : list (string * string)) : t :=
  fold_left (fun s call => fst (addDocument s (fst call) (snd call))) calls st.

End WithExternals.
Arguments t {Ext}.
End Store.

(* ===================================================================== *)
(** ** Test doubles *)
(* ===================================================================== *)

(** Stand-ins for the external libraries, on which the store can be run:
    a model of [path.extname] for POSIX paths, a brute-force index with a
    capacity, and a deterministic pipeline. *)
Module Double.

Definition is_slash (c : ascii) : bool := Ascii.eqb c "/"%char.
Definition is_dot (c : ascii) : bool := Ascii.eqb c "."%char.

Fixpoint drop_while (p : ascii -> bool) (l : list ascii) : list ascii :=
  match l with
  | c :: r => if p c then drop_while p r else l
  | [] => []
  end.

Fixpoint take_until (p : ascii -> bool) (l : list ascii) : list ascii :=
  match l with
  | c :: r => if p c then [] else c :: take_until p r
  | [] => []
  end.

(** [path.extname] as Node documents it: from the last dot of the last
    portion of the path to its end; empty when that portion has no dot, or
    none other than its first character, or is [..]. *)
Definition posix_extname (path : string) : string :=
  let base := take_until is_slash
                (drop_while is_slash (rev (list_ascii_of_string path))) in
  let ext := take_until is_dot base in
  match drop_while (fun c => negb (is_dot c)) base with
  | [] => ""
  | _ :: [] => ""
  | _ :: before =>
      if (List.length base =? 2)%nat && (List.length ext =? 0)%nat
         && forallb is_dot before
      then ""
      else String "."%char (string_of_list_ascii (rev ext))
  end.

(** The brute-force index: the points in insertion order, at most
    [capacity] of them. *)
Record brute := Brute { capacity : nat; points : list (nat * list float) }.

Fixpoint sq_l2 (u v : list float) : float :=
  match u, v with
  | x :: u', y :: v' =>
      PrimFloat.add (PrimFloat.mul (PrimFloat.sub x y) (PrimFloat.sub x y))
        (sq_l2 u' v')
  | _, _ => 0%float
  end.

Fixpoint insert_by_distance (p : nat * float) (l : list (nat * float))
  : list (nat * float) :=
  match l with
  | [] => [p]
  | q :: r =>
      if PrimFloat.leb (snd p) (snd q) then p :: l
      else q :: insert_by_distance p r
  end.

Definition closest_first (l : list (nat * float)) : list (nat * float) :=
  fold_right insert_by_distance [] l.

(** The first elements of [l], as long as their position is below [k]. *)
Fixpoint take_below (k : float) (i : nat) (l : list (nat * float))
  : list (nat * float) :=
  match l with
  | x :: r =>
      if PrimFloat.ltb (Num.of_nat i) k then x :: take_below k (S i) r else []
  | [] => []
  end.

Definition brute_add (a : brute) (v : list float) (l : nat) : option brute :=
  if (List.length (points a) <? capacity a)%nat
  then Some (Brute (capacity a) (points a ++ [(l, v)]))
  else None.

Definition brute_search (a : brute) (q : list float) (k : float)
  : option KnnResult :=
  let found :=
    take_below k 0
      (closest_first (map (fun p => (fst p, sq_l2 q (snd p))) (points a))) in
  Some (Knn (map fst found) (map snd found)).

#[export] Instance externals : Externals := {|
  extname := posix_extname;
  hnsw := brute;
  hnsw_new := fun _ maxElements => Brute maxElements [];
  addPoint := brute_add;
  searchKnn := brute_search;
|}.

(** The pipeline: no embedding for a text that starts with [#], else a
    vector made of the length of the text. *)
Definition pipeline : Pipeline :=
  fun text =>
    if String.prefix "#" text then None
    else Some [Num.of_nat (String.length text); 1%float].

(** A pipeline that always throws. *)
Definition broken : Pipeline := fun _ => None.

(** [n] copies of the character [c]. *)
Fixpoint repeat_char (c : ascii) (n : nat) : string :=
  match n with
  | O => ""
  | S n' => String c (repeat_char c n')
  end.

(** The labels of the brute-force index. *)
Definition brute_labels (a : brute) : gset nat :=
  list_to_set (map fst (points a)).

(** Two paragraphs of 300 characters: two chunks under the limit of 512. *)
Definition two_chunks : string :=
  repeat_char "a" 300 ++ Js.sep ++ repeat_char "b" 300.

(** Three paragraphs, the second of which the pipeline refuses. *)
Definition three_chunks : string :=
  repeat_char "a" 300 ++ Js.sep ++ String "#" (repeat_char "b" 300)
    ++ Js.sep ++ repeat_char "c" 400.

(** A store with one document. *)
Definition store_one : Store.t :=
  fst (Store.addDocument (Store.ready pipeline) "/docs/a.TXT"
         ("Alpha." ++ Js.sep ++ "Beta.")).

(** Its document, and the result a query of twelve characters finds. *)
Definition doc_one : Document :=
  Doc 0 "/docs/a.TXT" 0 ("Alpha." ++ Js.sep ++ "Beta.")
    (Some [13%float; 1%float]).

Definition result_one : SearchResult := Res 0.5%float (Some doc_one).

End Double.

(* ===================================================================== *)
(** ** Invariants of the store *)
(* ===================================================================== *)

Module Spec.
Section WithExternals.
Context `{Ext : Externals}.
Import Store.

(** The index [later] is the index [earlier] after some more points were
    added to it: nothing was taken out and it was not created anew. *)
Inductive index_grows (earlier : option hnsw) : option hnsw -> Prop :=
  | grows_refl : index_grows earlier earlier
  | grows_add ix v l ix' :
      index_grows earlier (Some ix) ->
      addPoint ix v l = Some ix' ->
      index_grows earlier (Some ix').

(** [new] is what the loop of [addDocument] may append to the catalog of
    [st] for the file [path] and the chunks [chunks], the first of which
    has the ordinal [i]: the document at position [j] of [new] has the id
    [documents.length + j], the file, a chunk of the list under its
    ordinal as text, and the embedding of that text. *)
Definition appended (st : t) (path : string) (i : nat) (chunks : list string)
    (new : list Document) : Prop :=
  forall j d, new !! j = Some d ->
    id d = (List.length (documents st) + j)%nat
    /\ file d = path
    /\ (i <= chunkId d)%nat
    /\ chunks !! (chunkId d - i)%nat = Some (text d)
    /\ vector d = generateEmbedding st (text d)
    /\ is_Some (vector d).

(** The document at position [i] has the id [i] and carries its vector. *)
Definition catalog_ok (st : t) : Prop :=
  forall i d, documents st !! i = Some d -> id d = i /\ is_Some (vector d).

(** Catalog and index in step: a store that is initialised has an index,
    and the labels in it are the positions of the catalog; a store that is
    not has no document yet. *)
Definition index_ok `{!HnswContract} (st : t) : Prop :=
  if initialized st then
    exists ix, index st = Some ix
      /\ labels ix = list_to_set (seq 0 (List.length (documents st)))
  else documents st = [].

Definition Inv `{!HnswContract} (st : t) : Prop :=
  catalog_ok st /\ index_ok st.

End WithExternals.
End Spec.

(* ===================================================================== *)
(** ** Paragraph separators *)
(* ===================================================================== *)

Module Paragraphs.
Import Js.

(** The pattern [/\n\s*\n/] matches somewhere in [s]. *)
Fixpoint has_separator (s : string) : bool :=
  match s with
  | EmptyString => false
  | String _ t =>
      match match_len s with
      | Some _ => true
      | None => has_separator t
      end
  end.

(** The paragraph can be a chunk of its own: it is not empty and not
    longer than [maxChunkSize]. *)
Definition fits (maxChunkSize : Z) (paragraph : string) : Prop :=
  paragraph <> "" /\ (Z.of_nat (String.length paragraph) <= maxChunkSize)%Z.

End Paragraphs.

(* ===================================================================== *)
(** ** Measures of the statistics *)
(* ===================================================================== *)

Module Histogram.

(** The sum of the counts of [fileTypes]. *)
Definition total (fileTypes : gmap string nat) : nat :=
  map_fold (fun _ count sum => (count + sum)%nat) 0%nat fileTypes.

End Histogram.

(* ===================================================================== *)
(** ** Path validation *)
(* ===================================================================== *)

(** What Node gives the path utilities: [os.homedir()], [process.cwd()],
    the functions of [path], and [fs.realpath], which answers [None] when
    it rejects (the path does not exist, a loop of links, ...). *)
Class NodePaths := {
  homedir : string;
  cwd : string;
  path_join : string -> string -> string;
  path_isAbsolute : string -> bool;
  path_resolve : list string -> string;
  path_normalize : string -> string;
  path_dirname : string -> string;
  fs_realpath : string -> option string;
}.

(** What a [throw] carries: an [Error] with its message, or the rejection
    of a file-system call. *)
Inductive thrown : Type :=
  | Message (message : string)
  | FsError.

(** How a block of statements ends: with a value, or by throwing. *)
Inductive attempt (A : Type) : Type :=
  | Done (a : A)
  | Raised (e : thrown).
Arguments Done {A} a.
Arguments Raised {A} e.

Module Paths.
Section WithNode.
Context `{Node : NodePaths}.

Definition normalizePath (p : string) : string := path_normalize p.

(** [filepath.slice(1)]. *)
Definition slice1 (filepath : string) : string :=
  match filepath with
  | EmptyString => EmptyString
  | String _ rest => rest
  end.

Definition expandHome (filepath : string) : string :=
  if String.prefix "~/" filepath || String.eqb filepath "~"
  then path_join homedir (slice1 filepath)
  else filepath.

(** [allowedDirectories.some(dir => normalized.startsWith(dir))]. *)
Definition isAllowed (allowedDirectories : list string) (normalized : string)
  : bool :=
  existsb (fun dir => String.prefix dir normalized) allowedDirectories.

(** [absolute] of [validatePath]. *)
Definition absolute_of (requestedPath : string) : string :=
  let expandedPath := expandHome requestedPath in
  if path_isAbsolute expandedPath
  then path_resolve [expandedPath]
  else path_resolve [cwd; expandedPath].

(** The first [try] block of [validatePath]. *)
Definition check_real (allowedDirectories : list string) (absolute : string)
  : attempt string :=
  match fs_realpath absolute with
  | None => Raised FsError
  | Some realPath =>
      let normalizedReal := normalizePath realPath in
      if negb (isAllowed allowedDirectories normalizedReal)
      then Raised
             (Message
                "Access denied - symlink target outside allowed directories")
      else Done realPath
  end.

(** The [try] block inside its [catch] clause. *)
Definition check_parent (allowedDirectories : list string)
    (absolute parentDir : string) : attempt string :=
  match fs_realpath parentDir with
  | None => Raised FsError
  | Some realParentPath =>
      let normalizedParent := normalizePath realParentPath in
      if negb (isAllowed allowedDirectories normalizedParent)
      then Raised
             (Message
                "Access denied - parent directory outside allowed directories")
      else Done absolute
  end.

Definition validatePath (allowedDirectories : list string)
    (requestedPath : string) : attempt string :=
  let absolute := absolute_of requestedPath in
  let normalizedRequested := normalizePath absolute in
  if negb (isAllowed allowedDirectories normalizedRequested)
  then Raised
         (Message
            ("Access denied - path outside allowed directories: " ++ absolute
               ++ " not in " ++ String.concat ", " allowedDirectories))
  else
    match check_real allowedDirectories absolute with
    | Done realPath => Done realPath
    | Raised _ =>
        let parentDir := path_dirname absolute in
        match check_parent allowedDirectories absolute parentDir with
        | Done p => Done p
        | Raised _ =>
            Raised (Message ("Parent directory does not exist: " ++ parentDir))
        end
    end.

End WithNode.
End Paths.

(* ===================================================================== *)
(** ** A file system for the examples *)
(* ===================================================================== *)

Module Fixtures.

(** The directory part of a POSIX path: what is in front of the last
    slash. *)
Definition posix_dirname (p : string) : string :=
  match Double.drop_while (fun c => negb (Double.is_slash c))
          (rev (list_ascii_of_string p)) with
  | [] => "."
  | _ :: [] => "/"
  | _ :: before => string_of_list_ascii (rev before)
  end.

(** The links of the example: one file, one link that leads out of the
    documents, and a directory beside the documents whose name starts like
    theirs. *)
Definition example_realpath (p : string) : option string :=
  if String.eqb p "/data/docs" then Some "/data/docs"
  else if String.eqb p "/data/docs/a.txt" then Some "/data/docs/a.txt"
  else if String.eqb p "/data/docs/link" then Some "/etc/passwd"
  else if String.eqb p "/data/docs-private" then Some "/data/docs-private"
  else if String.eqb p "/data/docs-private/s.txt"
  then Some "/data/docs-private/s.txt"
  else if String.eqb p "/data/docs/broken.pdf"
  then Some "/data/docs/broken.pdf"
  else if String.eqb p "/data/docs/empty.txt" then Some "/data/docs/empty.txt"
  else if String.eqb p "/data/docs/b.txt" then Some "/data/docs/b.txt"
  else if String.eqb p "/srv" then Some "/srv"
  else None.

#[export] Instance posix : NodePaths := {|
  homedir := "/home/u";
  cwd := "/work";
  path_join := fun a b => a ++ b;
  path_isAbsolute := String.prefix "/";
  path_resolve := fun parts =>
    match parts with
    | [p] => p
    | [c; p] => c ++ "/" ++ p
    | _ => ""
    end;
  path_normalize := fun p => p;
  path_dirname := posix_dirname;
  fs_realpath := example_realpath;
|}.

Definition allowed : list string := ["/data/docs"].

(** Three paragraphs of three characters. *)
Definition three_paragraphs : string :=
  "P1." ++ Js.sep ++ "P2." ++ Js.sep ++ "P3.".

(** One paragraph of two lines. *)
Definition two_lines : string := "first line" ++ String Js.LF "second line".

End Fixtures.

(* ===================================================================== *)
(** ** Text extraction and the tools of the server *)
(* ===================================================================== *)

(** The rest of what the tools get from outside: reading files, the PDF
    parser (its answer is the [text] of the parsed data), [path.basename],
    [path.relative], [glob], [minimatch], [Number.prototype.toFixed(4)],
    and the messages of the exceptions whose text the source does not
    hold: those of the ANN library and the [TypeError] of reading a
    property of [undefined].  Exceptions of libraries are taken to be
    [Error]s with a non-empty message. *)
Class Host := {
  Buffer : Type;
  fs_readFile : string -> option Buffer;
  fs_readFile_utf8 : string -> option string;
  pdf_parse : Buffer -> option string;
  path_basename : string -> string;
  path_relative : string -> string -> string;
  glob : string -> string -> attempt (list string);
  minimatch : string -> string -> bool;
  toFixed4 : float -> string;
  libraryMessage : string;
  fsMessage : string;
  typeErrorMessage : string;
}.

(** What a tool answers: the text of its one content item and the
    [isError] flag ([false] when the field is absent). *)
Record ToolResult := Tool { resultText : string; isError : bool }.

Module Text.

Definition digit (n : nat) : ascii := ascii_of_nat (48 + n).

Fixpoint decimal_go (fuel n : nat) (acc : string) : string :=
  match fuel with
  | O => acc
  | S fuel' =>
      let acc' := String (digit (n mod 10)) acc in
      if (n <? 10)%nat then acc' else decimal_go fuel' (n / 10) acc'
  end.

(** A natural number in a template string. *)
Definition decimal (n : nat) : string := decimal_go (S n) n "".

(** [a || b] on optional strings, as far as truthiness goes: the first
    that is present and not empty. *)
Definition or_string (a b : option string) : option string :=
  match a with
  | Some s => if Js.truthy s then Some s else b
  | None => b
  end.

(** A number is truthy unless it is zero or NaN. *)
Definition truthy_number (x : float) : bool :=
  negb (PrimFloat.is_zero x || PrimFloat.is_nan x).

Definition or_number (a b : option float) : option float :=
  match a with
  | Some x => if truthy_number x then Some x else b
  | None => b
  end.

(** [ext.replace(/^\./, '')]. *)
Definition strip_dot (ext : string) : string :=
  match ext with
  | String c rest => if Ascii.eqb c "."%char then rest else ext
  | EmptyString => EmptyString
  end.

(** [pattern.includes('*')]. *)
Fixpoint includes_star (pattern : string) : bool :=
  match pattern with
  | EmptyString => false
  | String c rest => Ascii.eqb c "*"%char || includes_star rest
  end.

End Text.

Module Tools.
Section WithHost.
Context `{Ext : Externals} `{Node : NodePaths} `{Files : Host}.
Variable allowedDirectories : list string.
Import Store.

(** [extractTextFromFile]. *)
Definition extractTextFromFile (filePath : string) : string :=
  let fileExt := Js.toLowerCase (extname filePath) in
  if String.eqb fileExt ".pdf" then
    match fs_readFile filePath with
    | Some dataBuffer =>
        match pdf_parse dataBuffer with
        | Some pdfText => pdfText
        | None =>
            "[PDF file: " ++ path_basename filePath
              ++ " - Error parsing content]"
        end
    | None =>
        "[PDF file: " ++ path_basename filePath ++ " - Error parsing content]"
    end
  else
    match fs_readFile_utf8 filePath with
    | Some content => content
    | None => ""
    end.

(** [error instanceof Error ? error.message : String(error)]. *)
Definition message_of_thrown (e : thrown) : string :=
  match e with
  | Message m => m
  | FsError => fsMessage
  end.

Definition message_of_error (e : error) : string :=
  match e with
  | EmbeddingFailed => "Failed to generate embedding for query"
  | LibraryError => libraryMessage
  end.

(** The answer of a [catch] clause of a tool. *)
Definition failed (errorMessage : string) : ToolResult :=
  Tool ("Error: " ++ errorMessage) true.

Definition succeeded (message : string) : ToolResult := Tool message false.

(** The tool [index_file]; [None] as long as the store is not
    initialised. *)
Definition index_file (st : t) (path file_path : option string)
  : t * option ToolResult :=
  match Text.or_string path file_path with
  | None => (st, Some (failed "No file path provided"))
  | Some filePath =>
      if negb (Js.truthy filePath)
      then (st, Some (failed "No file path provided"))
      else
        match Paths.validatePath allowedDirectories filePath with
        | Raised e => (st, Some (failed (message_of_thrown e)))
        | Done validPath =>
            let content := extractTextFromFile validPath in
            if negb (Js.truthy content)
            then (st, Some (failed ("Could not extract text from " ++ filePath)))
            else
              match addDocument st validPath content with
              | (st', Returned _) =>
                  (st', Some (succeeded ("Successfully indexed " ++ filePath)))
              | (st', Threw e) => (st', Some (failed (message_of_error e)))
              | (st', Waiting) => (st', None)
              end
        end
  end.

(** The glob pattern of [index_directory]. *)
Definition extension_pattern (extensions : list string) : string :=
  "**/*@(" ++ String.concat "|" (map Text.strip_dot extensions) ++ ")".

(** The filter of [index_directory] on the files that [glob] found. *)
Definition excluded (validPath : string) (excludePatterns : list string)
    (file : string) : bool :=
  let relativePath := path_relative validPath file in
  existsb
    (fun pattern =>
       let globPattern :=
         if Text.includes_star pattern then pattern
         else "**/" ++ pattern ++ "/**" in
       minimatch relativePath globPattern)
    excludePatterns.

(** The loop of [index_directory] over the files: the store and the lines
    of the report, or [None] when a call waits for the initialisation. *)
Fixpoint index_files (st : t) (files : list string) (results : list string)
  : t * option (list string) :=
  match files with
  | [] => (st, Some results)
  | file :: rest =>
      let content := extractTextFromFile file in
      if Js.truthy content then
        match addDocument st file content with
        | (st', Returned _) =>
            index_files st' rest
              (results ++ ["Successfully indexed " ++ file])
        | (st', Threw e) =>
            index_files st' rest
              (results
                 ++ ["Error indexing " ++ file ++ ": " ++ message_of_error e])
        | (st', Waiting) => (st', None)
        end
      else index_files st rest (results ++ ["No text extracted from " ++ file])
  end.

Definition index_directory (st : t) (path dir_path directory : option string)
    (extensions excludePatterns : list string) : t * option ToolResult :=
  match Text.or_string (Text.or_string path dir_path) directory with
  | None => (st, Some (failed "No directory path provided"))
  | Some dirPath =>
      if negb (Js.truthy dirPath)
      then (st, Some (failed "No directory path provided"))
      else
        match Paths.validatePath allowedDirectories dirPath with
        | Raised e => (st, Some (failed (message_of_thrown e)))
        | Done validPath =>
            match glob (extension_pattern extensions) validPath with
            | Raised e => (st, Some (failed (message_of_thrown e)))
            | Done files =>
                let filteredFiles :=
                  List.filter
                    (fun file => negb (excluded validPath excludePatterns file))
                    files in
                if (List.length filteredFiles =? 0)%nat
                then (st, Some (succeeded
                                  ("No matching files found in " ++ dirPath)))
                else
                  match index_files st filteredFiles [] with
                  | (st', Some results) =>
                      (st', Some (succeeded
                                    ("Indexed "
                                       ++ Text.decimal (List.length results)
                                       ++ " files:" ++ String Js.LF ""
                                       ++ String.concat (String Js.LF "")
                                            results)))
                  | (st', None) => (st', None)
                  end
            end
        end
  end.

(** One element of [formattedResults]; reading [result.document.file] of a
    result without document throws. *)
Definition format_result (index : nat) (result : SearchResult)
  : attempt string :=
  match document result with
  | Some doc =>
      Done ("Result " ++ Text.decimal (index + 1) ++ " (score: "
              ++ toFixed4 (score result) ++ ")" ++ String Js.LF ""
              ++ "File: " ++ file doc ++ String Js.LF ""
              ++ "---" ++ String Js.LF ""
              ++ text doc ++ String Js.LF "")
  | None => Raised (Message typeErrorMessage)
  end.

(** [results.map(...)]: the first element that throws ends it. *)
Fixpoint format_results (index : nat) (results : list SearchResult)
  : attempt (list string) :=
  match results with
  | [] => Done []
  | result :: rest =>
      match format_result index result with
      | Raised e => Raised e
      | Done line =>
          match format_results (S index) rest with
          | Raised e => Raised e
          | Done lines => Done (line :: lines)
          end
      end
  end.

(** The count of results the tool [search] asks for:
    [params.numResults || params.num_results || params.limit || 5]. *)
Definition chosen_numResults (numResults : float)
    (num_results limit : option float) : float :=
  match Text.or_number (Text.or_number (Some numResults) num_results) limit with
  | Some n => if Text.truthy_number n then n else 5%float
  | None => 5%float
  end.

(** The tool [search]. *)
Definition search_tool (st : t) (query q search_query text_ : option string)
    (numResults : float) (num_results limit : option float)
    (threshold : float) : option ToolResult :=
  match Text.or_string
          (Text.or_string (Text.or_string query q) search_query) text_ with
  | None => Some (failed "No search query provided")
  | Some queryText =>
      if negb (Js.truthy queryText)
      then Some (failed "No search query provided")
      else
        match search st queryText
                (chosen_numResults numResults num_results limit) threshold with
        | Waiting => None
        | Threw e => Some (failed (message_of_error e))
        | Returned results =>
            if (List.length results =? 0)%nat
            then Some (succeeded "No matching documents found.")
            else
              match format_results 0 results with
              | Raised e => Some (failed (message_of_thrown e))
              | Done formattedResults =>
                  Some (succeeded
                          (String.concat
                             (String Js.LF ("---" ++ Js.sep))
                             formattedResults))
              end
        end
  end.

(** The tool [clear_index]. *)
Definition clear_index (st : t) : t * ToolResult :=
  (clear st, succeeded "Vector index successfully cleared.").

End WithHost.
End Tools.

(* ===================================================================== *)
(** ** Files for the examples *)
(* ===================================================================== *)

Module HostFixture.

Definition posix_basename (p : string) : string :=
  string_of_list_ascii
    (rev (Double.take_until Double.is_slash
            (Double.drop_while Double.is_slash (rev (list_ascii_of_string p))))).

(** Three text files (one of them empty, one that the pipeline of the
    examples refuses) and a PDF that cannot be parsed. *)
Definition example_text (p : string) : option string :=
  if String.eqb p "/data/docs/a.txt" then Some ("Alpha." ++ Js.sep ++ "Beta.")
  else if String.eqb p "/data/docs/empty.txt" then Some ""
  else if String.eqb p "/data/docs/b.txt" then Some "#refused"
  else None.

Definition example_files : list string :=
  ["/data/docs/a.txt"; "/data/docs/empty.txt"; "/data/docs/b.txt"].

#[export] Instance host : Host := {|
  Buffer := string;
  fs_readFile := fun p =>
    if String.eqb p "/data/docs/broken.pdf" then Some "%PDF-" else None;
  fs_readFile_utf8 := example_text;
  pdf_parse := fun _ => None;
  path_basename := posix_basename;
  path_relative := fun _ to => to;
  glob := fun _ _ => Done example_files;
  minimatch := fun _ _ => false;
  toFixed4 := fun _ => "0.5000";
  libraryMessage := "The number of elements exceeds the specified limit";
  fsMessage := "ENOENT: no such file or directory";
  typeErrorMessage := "Cannot read properties of undefined (reading 'file')";
|}.

End HostFixture.

(* ===================================================================== *)
(** ** The store on the FAISS index *)
(* ===================================================================== *)

(** The class [IndexFlatL2] of faiss-node, as far as [addDocument] and
    [clear] of the other version of the server use it, with [ntotal()]: a
    new index holds no vector and [add] adds one.  A vector has no label of
    its own there: a search answers with the position at which the vector
    was added.  [extname_f] is [path.extname]. *)
Class FaissLib := {
  extname_f : string -> string;
  faiss : Type;
  faiss_new : forall (dimension : nat), faiss;
  faiss_add : faiss -> list float -> option faiss;
  ntotal : faiss -> nat;
  ntotal_new : forall d, ntotal (faiss_new d) = 0%nat;
  ntotal_add : forall a v a', faiss_add a v = Some a' -> ntotal a' = S (ntotal a);
}.

Module FaissStore.
Section WithFaiss.
Context `{Lib : FaissLib}.

Record t := Mk {
  embeddingModel : option Pipeline;
  documents : list Document;
  index : option faiss;
  initialized : bool;
  dimension : nat;
  fileTypes : gmap string nat;
}.

Definition constructed : t := Mk None [] None false 384 ∅.

Definition init (loaded : option Pipeline) (st : t) : t :=
  match loaded with
  | Some m =>
      Mk (Some m) (documents st) (Some (faiss_new (dimension st))) true
         (dimension st) (fileTypes st)
  | None =>
      Mk (embeddingModel st) (documents st) (index st) false (dimension st)
         (fileTypes st)
  end.

Definition ready (m : Pipeline) : t := init (Some m) constructed.

Definition generateEmbedding (st : t) (text : string) : option (list float) :=
  match embeddingModel st with
  | None => None
  | Some model => model text
  end.

(** The loop of [addDocument]: the document is pushed first, then the
    vector is added to the index. *)
Fixpoint addChunks (st : t) (file : string) (i : nat) (chunks : list string)
  : t * outcome unit :=
  match chunks with
  | [] => (st, Returned tt)
  | chunk :: rest =>
      match generateEmbedding st chunk with
      | Some embedding =>
          let doc :=
            Doc (List.length (documents st)) file i chunk (Some embedding) in
          let pushed :=
            Mk (embeddingModel st) (documents st ++ [doc]) (index st)
               (initialized st) (dimension st) (fileTypes st) in
          match index st with
          | Some ix =>
              match faiss_add ix embedding with
              | Some ix' =>
                  addChunks
                    (Mk (embeddingModel st) (documents st ++ [doc]) (Some ix')
                        (initialized st) (dimension st) (fileTypes st))
                    file (S i) rest
              | None => (pushed, Threw LibraryError)
              end
          | None => addChunks pushed file (S i) rest
          end
      | None => addChunks st file (S i) rest
      end
  end.

Definition addDocument (st : t) (file text : string) : t * outcome unit :=
  if initialized st then
    let fileExt := Js.toLowerCase (extname_f file) in
    let st1 :=
      Mk (embeddingModel st) (documents st) (index st) (initialized st)
         (dimension st)
         (<[ fileExt := (default 0%nat (fileTypes st !! fileExt) + 1)%nat ]>
            (fileTypes st)) in
    addChunks st1 file 0 (Chunker.chunkText text Chunker.defaultMaxChunkSize)
  else (st, Waiting).

Definition clear (st : t) : t :=
  Mk (embeddingModel st) []
     (match index st with
      | Some _ => Some (faiss_new (dimension st))
      | None => None
      end)
     (initialized st) (dimension st) ∅.

Definition addDocuments (st : t) (calls : list (string * string)) : t :=
  fold_left (fun s call => fst (addDocument s (fst call) (snd call))) calls st.

(** The catalog holds [gap] documents more than the index holds vectors. *)
Definition behind (gap : nat) (st : t) : Prop :=
  exists ix, index st = Some ix
    /\ List.length (documents st) = (ntotal ix + gap)%nat.

End WithFaiss.
End FaissStore.

(** A flat index for the examples: it takes vectors of its dimension only,
    as the library does. *)
Module FaissFixture.

Record flat := Flat { flat_dimension : nat; flat_vectors : list (list float) }.

Definition flat_add (a : flat) (v : list float) : option flat :=
  if (List.length v =? flat_dimension a)%nat
  then Some (Flat (flat_dimension a) (flat_vectors a ++ [v]))
  else None.

Lemma flat_ntotal_add a v a' :
  flat_add a v = Some a' ->
  List.length (flat_vectors a') = S (List.length (flat_vectors a)).
Proof.
  unfold flat_add. destruct (List.length v =? flat_dimension a)%nat;
    [|discriminate].
  intros [= <-]. simpl. rewrite length_app. simpl. lia.
Qed.

#[export] Instance lib : FaissLib := {|
  extname_f := Double.posix_extname;
  faiss := flat;
  faiss_new := fun d => Flat d [];
  faiss_add := flat_add;
  ntotal := fun a => List.length (flat_vectors a);
  ntotal_new := fun _ => eq_refl;
  ntotal_add := flat_ntotal_add;
|}.

(** A pipeline whose vectors have 384 components, but for the texts that
    start with [!], for which they have two. *)
Definition pipeline384 : Pipeline :=
  fun text =>
    if String.prefix "!" text then Some [1%float; 2%float]
    else Some (repeat 0.5%float 384).

End FaissFixture.

(* ===================================================================== *)
(** ** Properties of the chunker *)
(* ===================================================================== *)

Section ChunkerFacts.
Import Js Chunker.

Lemma length_append (s1 s2 : string) :
  String.length (s1 ++ s2) = (String.length s1 + String.length s2)%nat.
Proof. induction s1 as [|c s1 IH]; simpl; [reflexivity | now rewrite IH]. Qed.

Example split_three :
  split_paragraphs ("P1." ++ sep ++ "P2." ++ sep ++ "P3.")
  = ["P1."; "P2."; "P3."].
Proof. reflexivity. Qed.

Example split_blank_lines :
  split_paragraphs
    ("a" ++ String LF (String " " (String LF (String LF " b"))))
  = ["a"; " b"].
Proof. reflexivity. Qed.

Example split_single_newline :
  split_paragraphs ("a" ++ String LF "b") = ["a" ++ String LF "b"].
Proof. reflexivity. Qed.

Example split_empty : split_paragraphs "" = [""].
Proof. reflexivity. Qed.

(** The test of the suite on paragraph boundaries: twelve characters a
    paragraph and a limit of fifteen give one chunk a paragraph. *)
Example chunk_paragraph_boundaries :
  chunkText
    ("Paragraph 1." ++ sep ++ "Paragraph 2." ++ sep ++ "Paragraph 3.") 15
  = ["Paragraph 1."; "Paragraph 2."; "Paragraph 3."].
Proof. reflexivity. Qed.

(** The buffer test leaves the separator out: a paragraph joins the buffer
    when the two lengths add up to the limit or less. *)
Lemma step_joins m a p :
  (Z.of_nat (String.length (currentChunk a) + String.length p) <= m)%Z ->
  truthy (currentChunk a) = true ->
  step m a p = Acc (chunks a) (currentChunk a ++ sep ++ p).
Proof.
  intros Hle Ht. unfold step.
  rewrite length_append, Ht.
  destruct (Z.leb_spec (Z.of_nat (String.length (currentChunk a) + String.length p)) m);
    [reflexivity | lia].
Qed.

(** With a non-empty buffer a paragraph that does not fit becomes the new
    buffer as it is, whatever its length. *)
Lemma step_starts_buffer m a p :
  (m < Z.of_nat (String.length (currentChunk a) + String.length p))%Z ->
  truthy (currentChunk a) = true ->
  step m a p = Acc (chunks a ++ [currentChunk a]) p.
Proof.
  intros Hlt Ht. unfold step.
  rewrite length_append, Ht.
  destruct (Z.leb_spec (Z.of_nat (String.length (currentChunk a) + String.length p)) m);
    [lia | reflexivity].
Qed.

(** The chunker of the test-suite never answers with no chunk. *)
Lemma chunkText_test_nonempty text m : chunkText_test text m <> [].
Proof.
  unfold chunkText_test.
  destruct (flush (loop m (split_paragraphs text))) as [|c l] eqn:E;
    simpl; discriminate.
Qed.

(** The chunker of the server answers the empty text with no chunk, for
    every limit that is not negative. *)
Lemma chunkText_empty_text m : (0 <= m)%Z -> chunkText "" m = [].
Proof.
  intros Hm. unfold chunkText, loop, split_paragraphs; simpl.
  unfold step; simpl.
  change (Z.of_nat 0) with 0%Z.
  destruct (Z.leb_spec 0 m); [reflexivity | lia].
Qed.

(** C1 (defect of the code). [chunkText] returns chunks longer than
    [maxChunkSize]: two paragraphs of three characters are joined under a
    limit of six into a chunk of eight characters, because the test on the
    buffer does not count the separator; and a paragraph of eight
    characters that follows a non-empty buffer is returned whole under a
    limit of three, because only a paragraph met with an empty buffer is
    cut. *)
Theorem chunkText_exceeds_maxChunkSize :
  chunkText ("abc" ++ sep ++ "def") 6 = ["abc" ++ sep ++ "def"]
  /\ String.length ("abc" ++ sep ++ "def") = 8%nat
  /\ chunkText ("ab" ++ sep ++ "abcdefgh") 3 = ["ab"; "abcdefgh"]
  /\ String.length "abcdefgh" = 8%nat.
Proof. repeat split; reflexivity. Qed.

(** C2 (defect of the code). On the three paragraphs of three characters
    and a limit of six, [chunkText] returns two chunks, the first made of
    the first two paragraphs and eight characters long, and not one chunk
    a paragraph. *)
Theorem chunkText_scenario_B :
  chunkText ("P1." ++ sep ++ "P2." ++ sep ++ "P3.") 6
  = ["P1." ++ sep ++ "P2."; "P3."]
  /\ chunkText ("P1." ++ sep ++ "P2." ++ sep ++ "P3.") 6
     <> ["P1."; "P2."; "P3."].
Proof. split; [reflexivity | discriminate]. Qed.

(** C3 (defect of the code). On the empty text the chunker of the server
    returns no chunk at all, where the chunker of the test-suite returns
    the one chunk [""]. *)
Theorem chunkText_empty_returns_nothing :
  chunkText "" defaultMaxChunkSize = []
  /\ chunkText_test "" defaultMaxChunkSize = [""].
Proof. split; reflexivity. Qed.

End ChunkerFacts.

(* ===================================================================== *)
(** ** Properties of numbers *)
(* ===================================================================== *)

Section NumFacts.

Lemma compare_cont_Eq_antisym p q :
  Pos.compare_cont Eq q p = CompOpp (Pos.compare_cont Eq p q).
Proof. exact (Pos.compare_antisym p q). Qed.

Lemma SFcompare_antisym x y :
  SFcompare y x = option_map CompOpp (SFcompare x y).
Proof.
  destruct x as [sx|sx| |sx mx ex], y as [sy|sy| |sy my ey]; simpl;
    try reflexivity;
    try (destruct sx; reflexivity); try (destruct sy; reflexivity);
    try (destruct sx, sy; reflexivity).
  destruct sx, sy; simpl; try reflexivity;
    rewrite (Z.compare_antisym ey ex);
    destruct (ey ?= ex)%Z; simpl; try reflexivity;
    rewrite (compare_cont_Eq_antisym mx my); reflexivity.
Qed.

(** No number is at most NaN. *)
Lemma leb_nan_r x : PrimFloat.leb x PrimFloat.nan = false.
Proof.
  rewrite leb_spec. replace (Prim2SF nan) with S754_nan by reflexivity.
  unfold SFleb. destruct (Prim2SF x); reflexivity.
Qed.

(** [a <= b] excludes [b < a]. *)
Lemma leb_not_ltb a b :
  PrimFloat.leb a b = true -> PrimFloat.ltb b a = false.
Proof.
  rewrite leb_spec, ltb_spec. unfold SFleb, SFltb.
  rewrite (SFcompare_antisym (Prim2SF a) (Prim2SF b)).
  destruct (SFcompare (Prim2SF a) (Prim2SF b)) as [[]|]; simpl; congruence.
Qed.

(** A score computed from a missing distance is NaN and passes no
    threshold. *)
Lemma geb_similarity_undefined threshold :
  Num.geb (Num.similarity_at None) threshold = false.
Proof. unfold Num.geb. apply leb_nan_r. Qed.

Example similarity_zero : Num.similarity 0%float = 1%float.
Proof. reflexivity. Qed.

Example similarity_one : Num.similarity 1%float = 0.5%float.
Proof. reflexivity. Qed.

End NumFacts.

(* ===================================================================== *)
(** ** Properties of the store *)
(* ===================================================================== *)

Section StoreFacts.
Context `{Ext : Externals}.
Import Store Spec.
#[local] Open Scope list_scope.

(** *** The loop over the chunks *)

(** The loop assigns neither the model nor the flags nor the statistics. *)
Lemma addChunks_frame chunks : forall st path i,
  let st' := fst (addChunks st path i chunks) in
  embeddingModel st' = embeddingModel st
  /\ initialized st' = initialized st
  /\ dimension st' = dimension st
  /\ fileTypes st' = fileTypes st.
Proof.
  induction chunks as [|c rest IH]; intros st path i; simpl; [tauto|].
  destruct (generateEmbedding st c) as [e|]; [|apply IH].
  destruct (index st) as [ix|].
  - destruct (addPoint ix e _) as [ix'|]; simpl; [|tauto].
    specialize (IH (with_documents
                      (documents st ++ [Doc (List.length (documents st)) path i c (Some e)])
                      (with_index (Some ix') st)) path (S i)).
    simpl in IH. exact IH.
  - specialize (IH (with_documents
                      (documents st ++ [Doc (List.length (documents st)) path i c (Some e)])
                      st) path (S i)).
    simpl in IH. exact IH.
Qed.

Lemma generateEmbedding_same st st' c :
  embeddingModel st' = embeddingModel st ->
  generateEmbedding st' c = generateEmbedding st c.
Proof. unfold generateEmbedding. now intros ->. Qed.

(** The loop over a list of chunks cut in two: the second part is run on
    the store the first part left, unless the first part threw. *)
Lemma addChunks_app before : forall st path i after,
  addChunks st path i (before ++ after)
  = match addChunks st path i before with
    | (st1, Returned _) => addChunks st1 path (i + List.length before) after
    | r => r
    end.
Proof.
  induction before as [|c rest IH]; intros st path i after; simpl.
  - now rewrite Nat.add_0_r.
  - replace (i + S (List.length rest))%nat with (S i + List.length rest)%nat by lia.
    destruct (generateEmbedding st c) as [e|]; [|apply IH].
    destruct (index st) as [ix|]; [|apply IH].
    destruct (addPoint ix e _) as [ix'|]; [apply IH | reflexivity].
Qed.

Lemma appended_nil st path i chunks : appended st path i chunks [].
Proof. intros j d H. discriminate. Qed.

Lemma appended_skip st path i c rest new :
  appended st path (S i) rest new -> appended st path i (c :: rest) new.
Proof.
  intros Hnew j d Hj.
  destruct (Hnew j d Hj) as (Hid & Hf & Hi & Hc & Hv & Hs).
  repeat split; try assumption; try lia.
  replace (chunkId d - i)%nat with (S (chunkId d - S i)) by lia.
  exact Hc.
Qed.

Lemma appended_cons st st1 path i c e rest new :
  generateEmbedding st c = Some e ->
  embeddingModel st1 = embeddingModel st ->
  List.length (documents st1) = S (List.length (documents st)) ->
  appended st1 path (S i) rest new ->
  appended st path i (c :: rest)
    (Doc (List.length (documents st)) path i c (Some e) :: new).
Proof.
  intros He Hm Hlen Hnew [|j] d Hj; simpl in Hj.
  - injection Hj as <-. simpl. rewrite Nat.add_0_r, Nat.sub_diag.
    repeat split; eauto.
  - destruct (Hnew j d Hj) as (Hid & Hf & Hi & Hc & Hv & Hs).
    rewrite Hlen in Hid.
    rewrite (generateEmbedding_same st st1 _ Hm) in Hv.
    repeat split; try assumption; try lia.
    replace (chunkId d - i)%nat with (S (chunkId d - S i)) by lia.
    exact Hc.
Qed.

(** What the loop appends: the new documents follow the old ones. *)
Lemma addChunks_documents chunks : forall st path i,
  exists new,
    documents (fst (addChunks st path i chunks)) = documents st ++ new
    /\ appended st path i chunks new.
Proof.
  induction chunks as [|c rest IH]; intros st path i; simpl.
  - exists []. split; [now rewrite app_nil_r | apply appended_nil].
  - destruct (generateEmbedding st c) as [e|] eqn:He.
    + destruct (index st) as [ix|].
      * destruct (addPoint ix e _) as [ix'|]; simpl.
        -- destruct (IH (with_documents
                           (documents st ++ [Doc (List.length (documents st)) path i c (Some e)])
                           (with_index (Some ix') st)) path (S i))
             as (new & Hd & Hnew).
           exists (Doc (List.length (documents st)) path i c (Some e) :: new).
           split; [rewrite Hd; simpl; now rewrite <- app_assoc|].
           eapply appended_cons; [exact He | | | exact Hnew]; simpl;
             [reflexivity | rewrite length_app; simpl; lia].
        -- exists []. split; [now rewrite app_nil_r | apply appended_nil].
      * destruct (IH (with_documents
                        (documents st ++ [Doc (List.length (documents st)) path i c (Some e)])
                        st) path (S i))
          as (new & Hd & Hnew).
        exists (Doc (List.length (documents st)) path i c (Some e) :: new).
        split; [rewrite Hd; simpl; now rewrite <- app_assoc|].
        eapply appended_cons; [exact He | | | exact Hnew]; simpl;
          [reflexivity | rewrite length_app; simpl; lia].
    + destruct (IH st path (S i)) as (new & Hd & Hnew).
      exists new. split; [exact Hd | now apply appended_skip].
Qed.

(** The loop only adds points to the index. *)
Lemma addChunks_index_grows chunks : forall st path i,
  index_grows (index st) (index (fst (addChunks st path i chunks))).
Proof.
  induction chunks as [|c rest IH]; intros st path i; simpl; [constructor|].
  destruct (generateEmbedding st c) as [e|]; [|apply IH].
  destruct (index st) as [ix|] eqn:Hix.
  - destruct (addPoint ix e _) as [ix'|] eqn:Hadd; simpl.
    + pose proof (IH (with_documents
                        (documents st ++ [Doc (List.length (documents st)) path i c (Some e)])
                        (with_index (Some ix') st)) path (S i)) as Hg.
      simpl in Hg.
      assert (H1 : index_grows (Some ix) (Some ix'))
        by (eapply grows_add; [constructor | exact Hadd]).
      clear - H1 Hg. induction Hg; [exact H1 | eapply grows_add; eauto].
    + rewrite Hix. constructor.
  - pose proof (IH (with_documents
                      (documents st ++ [Doc (List.length (documents st)) path i c (Some e)])
                      st) path (S i)) as Hg.
    simpl in Hg. rewrite Hix in Hg. exact Hg.
Qed.

(** *** The ids of the catalog *)

Lemma appended_ids st path i chunks new :
  appended st path i chunks new ->
  map id new = seq (List.length (documents st)) (List.length new).
Proof.
  intros Hnew. apply list_eq. intros j.
  rewrite list_lookup_fmap.
  destruct (new !! j) as [d|] eqn:Hj; simpl.
  - destruct (Hnew j d Hj) as (Hid & _).
    rewrite lookup_seq_lt by (eapply lookup_lt_Some; eauto).
    now rewrite Hid.
  - rewrite lookup_seq_ge; [reflexivity|].
    now apply lookup_ge_None.
Qed.

Lemma addDocument_documents st path text :
  exists new,
    documents (fst (addDocument st path text)) = documents st ++ new
    /\ appended st path 0
         (Chunker.chunkText text Chunker.defaultMaxChunkSize) new.
Proof.
  unfold addDocument. destruct (initialized st).
  - destruct (addChunks_documents
                (Chunker.chunkText text Chunker.defaultMaxChunkSize)
                (with_fileTypes
                   (bump (Js.toLowerCase (extname path)) (fileTypes st)) st)
                path 0) as (new & Hd & Hnew).
    exists new. split; [exact Hd | exact Hnew].
  - exists []. split; [simpl; now rewrite app_nil_r | apply appended_nil].
Qed.

Lemma addDocument_ids st path text :
  map id (documents st) = seq 0 (List.length (documents st)) ->
  map id (documents (fst (addDocument st path text)))
  = seq 0 (List.length (documents (fst (addDocument st path text)))).
Proof.
  intros Hids.
  destruct (addDocument_documents st path text) as (new & -> & Hnew).
  rewrite map_app, length_app, seq_app, Hids. simpl.
  now rewrite (appended_ids _ _ _ _ _ Hnew).
Qed.

Lemma addDocuments_ids calls : forall st,
  map id (documents st) = seq 0 (List.length (documents st)) ->
  map id (documents (addDocuments st calls))
  = seq 0 (List.length (documents (addDocuments st calls))).
Proof.
  induction calls as [|[path text] calls IH]; intros st Hids; simpl;
    [exact Hids|].
  apply IH. now apply addDocument_ids.
Qed.

(** C8. From a store with an empty catalog (a new one, or one just
    cleared), after any run of [addDocument] calls, with any pipeline (so
    with any number of chunks skipped for want of an embedding) and any
    behaviour of the index library, the ids of the catalog read in order
    are 0, 1, ..., N-1, N being the number of documents stored. *)
Theorem catalog_ids_are_consecutive (st : t)
    (calls : list (string * string)) :
  documents st = [] ->
  map id (documents (addDocuments st calls))
  = seq 0 (List.length (documents (addDocuments st calls))).
Proof. intros Hempty. apply addDocuments_ids. now rewrite Hempty. Qed.

(** *** The statistics of [addDocument] *)

(** C4 (amended). A call of [addDocument] on an initialised store counts
    the lower-cased extension of the file once, whatever the number of
    chunks it appends; every document it appends goes to the end of the
    catalog with the catalog length of that moment as its id. *)
Theorem addDocument_counts_the_file_once st path text :
  initialized st = true ->
  fileTypes (fst (addDocument st path text))
  = <[ Js.toLowerCase (extname path) :=
         (default 0%nat (fileTypes st !! Js.toLowerCase (extname path)) + 1)%nat ]>
      (fileTypes st)
  /\ exists new,
       documents (fst (addDocument st path text)) = documents st ++ new
       /\ appended st path 0
            (Chunker.chunkText text Chunker.defaultMaxChunkSize) new.
Proof.
  intros Hinit. split; [|apply addDocument_documents].
  unfold addDocument. rewrite Hinit.
  destruct (addChunks_frame
              (Chunker.chunkText text Chunker.defaultMaxChunkSize)
              (with_fileTypes
                 (bump (Js.toLowerCase (extname path)) (fileTypes st)) st)
              path 0) as (_ & _ & _ & Hft).
  rewrite Hft. reflexivity.
Qed.

(** *** Chunks without an embedding *)

(** The turn of a chunk that has no embedding leaves the store as it is. *)
Lemma addChunks_skip st path i chunk after :
  generateEmbedding st chunk = None ->
  addChunks st path i (chunk :: after) = addChunks st path (S i) after.
Proof. intros He. simpl. now rewrite He. Qed.

(** C7. In a call of [addDocument] on an initialised store, let [chunk] be
    a chunk of the text for which the pipeline gives no embedding, [before]
    the chunks in front of it and [after] those behind.  The turn of
    [chunk] changes neither catalog nor index and the loop goes on with
    [after] (first two parts); the documents and the points stored up to
    there stay (third to sixth part); and no document appended by the call
    has the ordinal of [chunk] (last part). *)
Theorem addDocument_skips_failed_chunk st path text before chunk after :
  initialized st = true ->
  Chunker.chunkText text Chunker.defaultMaxChunkSize
    = before ++ chunk :: after ->
  generateEmbedding st chunk = None ->
  let st0 :=
    with_fileTypes (bump (Js.toLowerCase (extname path)) (fileTypes st)) st in
  let mid := addChunks st0 path 0 before in
  let fin := addDocument st path text in
  (forall s i, embeddingModel s = embeddingModel st ->
     addChunks s path i (chunk :: after) = addChunks s path (S i) after)
  /\ fin = match mid with
           | (st1, Returned _) =>
               addChunks st1 path (S (List.length before)) after
           | r => r
           end
  /\ (exists kept, documents (fst mid) = documents st ++ kept)
  /\ (exists more, documents (fst fin) = documents (fst mid) ++ more)
  /\ index_grows (index st) (index (fst mid))
  /\ index_grows (index (fst mid)) (index (fst fin))
  /\ (forall new d,
        documents (fst fin) = documents st ++ new ->
        d ∈ new -> chunkId d <> List.length before).
Proof.
  intros Hinit Hchunks Hfail st0 mid fin.
  assert (Hskip : forall s i, embeddingModel s = embeddingModel st ->
     addChunks s path i (chunk :: after) = addChunks s path (S i) after).
  { intros s i Hs. apply addChunks_skip.
    now rewrite (generateEmbedding_same st s chunk Hs). }
  assert (Hfin : fin = match mid with
           | (st1, Returned _) =>
               addChunks st1 path (S (List.length before)) after
           | r => r
           end).
  { unfold fin, addDocument. rewrite Hinit, Hchunks. fold st0.
    rewrite addChunks_app. fold mid.
    pose proof (addChunks_frame before st0 path 0) as (Hm & _).
    fold mid in Hm. destruct mid as [st1 [[]|e|]]; try reflexivity.
    simpl in Hm. apply Hskip. exact Hm. }
  split; [exact Hskip|]. split; [exact Hfin|].
  split; [|split; [|split; [|split]]].
  - destruct (addChunks_documents before st0 path 0) as (kept & Hk & _).
    exists kept. exact Hk.
  - rewrite Hfin. destruct mid as [st1 [[]|e|]];
      try (exists []; simpl; now rewrite app_nil_r).
    destruct (addChunks_documents after st1 path (S (List.length before)))
      as (more & Hmore & _).
    exists more. exact Hmore.
  - apply (addChunks_index_grows before st0 path 0).
  - rewrite Hfin. destruct mid as [st1 [[]|e|]]; try constructor.
    apply addChunks_index_grows.
  - intros new d Hdocs Hd Hord.
    destruct (addDocument_documents st path text) as (new' & Hdocs' & Hnew').
    fold fin in Hdocs'. rewrite Hdocs in Hdocs'.
    apply app_inv_head in Hdocs'. subst new'.
    apply list_elem_of_lookup in Hd as (j & Hj).
    destruct (Hnew' j d Hj) as (_ & _ & _ & Hc & Hv & Hs).
    rewrite Hchunks, Hord, Nat.sub_0_r in Hc.
    rewrite list_lookup_middle in Hc by reflexivity.
    injection Hc as Hc. rewrite <- Hc, Hfail in Hv.
    rewrite Hv in Hs. destruct Hs as [x Hx]. discriminate.
Qed.

(** *** [clear] *)

(** C9. After [clear], whatever the store held, the statistics show no
    document and no extension and no file is listed; a second [clear]
    changes nothing. *)
Theorem clear_resets_and_is_idempotent (st : t) :
  getStats (clear st) = MkStats 0 ∅
  /\ getIndexedFiles (clear st) = []
  /\ clear (clear st) = clear st
  /\ getStats (clear (clear st)) = MkStats 0 ∅
  /\ getIndexedFiles (clear (clear st)) = [].
Proof.
  assert (Hidem : clear (clear st) = clear st).
  { unfold clear; simpl. destruct (initialized st); reflexivity. }
  rewrite Hidem. repeat split; reflexivity.
Qed.

End StoreFacts.

(* ===================================================================== *)
(** ** Properties of [search] *)
(* ===================================================================== *)

Section SearchFacts.
Context `{Ext : Externals}.
Import Store Spec.
#[local] Open Scope list_scope.

(** On an empty catalog [search] answers with no result, whatever the
    query, and does not call the pipeline. *)
Lemma search_empty_catalog st query numResults threshold :
  initialized st = true -> documents st = [] ->
  search st query numResults threshold = Returned [].
Proof.
  intros Hinit Hdocs. unfold search. rewrite Hinit, Hdocs.
  destruct (index st); reflexivity.
Qed.

(** What [search] returns, when it returns: the neighbours of the query
    that pass the threshold, in the order of the library. *)
Lemma search_returned st query numResults threshold results :
  search st query numResults threshold = Returned results ->
  results = []
  \/ exists ix q found,
       index st = Some ix
       /\ generateEmbedding st query = Some q
       /\ searchKnn ix q
            (Num.Math_min numResults (Num.of_nat (List.length (documents st))))
          = Some found
       /\ results
          = List.filter (fun result => Num.geb (score result) threshold)
              (imap (hydrate st found) (neighbors found)).
Proof.
  unfold search. intros H.
  destruct (initialized st); [|discriminate].
  destruct (index st) as [ix|]; [|left; congruence].
  destruct (List.length (documents st) =? 0)%nat; [left; congruence|].
  destruct (generateEmbedding st query) as [q|]; [|discriminate].
  destruct (searchKnn ix q _) as [found|] eqn:Hk; [|discriminate].
  right. exists ix, q, found. repeat split; congruence.
Qed.

(** Where a returned result comes from. *)
Lemma search_result_origin st query numResults threshold results :
  search st query numResults threshold = Returned results ->
  forall r, r ∈ results ->
    (exists ix q found i idx d,
        index st = Some ix
        /\ generateEmbedding st query = Some q
        /\ searchKnn ix q
             (Num.Math_min numResults
                (Num.of_nat (List.length (documents st))))
           = Some found
        /\ neighbors found !! i = Some idx
        /\ distances found !! i = Some d
        /\ score r = Num.similarity d
        /\ document r = documents st !! idx)
    /\ Num.geb (score r) threshold = true.
Proof.
  intros Hs r Hr.
  destruct (search_returned _ _ _ _ _ Hs)
    as [-> | (ix & q & found & Hix & Hq & Hk & ->)].
  - inversion Hr.
  - apply list_elem_of_In, filter_In in Hr as [Hr Hge].
    apply list_elem_of_In, elem_of_lookup_imap_1 in Hr as (i & idx & -> & Hi).
    split; [|exact Hge].
    unfold hydrate in *. simpl in *.
    destruct (distances found !! i) as [d|] eqn:Hd.
    + exists ix, q, found, i, idx, d. repeat split; assumption.
    + rewrite geb_similarity_undefined in Hge. discriminate.
Qed.

(** C5. Every result that [search] returns stands for a neighbour the
    index library reported for the query: its score is [1 / (1 + d)] for
    the distance [d] reported at the position of that neighbour, its
    document is the catalog entry under the neighbour's label; the score
    is at least the threshold, and so not below it. *)
Theorem search_scores_and_threshold st query numResults threshold results :
  search st query numResults threshold = Returned results ->
  forall r, r ∈ results ->
    (exists ix q found i idx d,
        index st = Some ix
        /\ generateEmbedding st query = Some q
        /\ searchKnn ix q
             (Num.Math_min numResults
                (Num.of_nat (List.length (documents st))))
           = Some found
        /\ neighbors found !! i = Some idx
        /\ distances found !! i = Some d
        /\ score r = PrimFloat.div 1%float (PrimFloat.add 1%float d)
        /\ document r = documents st !! idx)
    /\ Num.geb (score r) threshold = true
    /\ PrimFloat.ltb (score r) threshold = false.
Proof.
  intros Hs r Hr.
  destruct (search_result_origin _ _ _ _ _ Hs r Hr) as [Horigin Hge].
  split; [exact Horigin|].
  split; [exact Hge | now apply leb_not_ltb].
Qed.

(** C6 (amended). On an initialised store with an index and at least one
    document, a query for which the pipeline gives no embedding makes
    [search] throw [Failed to generate embedding for query]. *)
Theorem search_throws_without_query_embedding
    st query numResults threshold :
  initialized st = true ->
  index st <> None ->
  documents st <> [] ->
  generateEmbedding st query = None ->
  search st query numResults threshold = Threw EmbeddingFailed.
Proof.
  intros Hinit Hix Hdocs Hq. unfold search. rewrite Hinit.
  destruct (index st) as [ix|]; [|congruence].
  destruct (documents st) as [|d docs]; [congruence|].
  simpl. now rewrite Hq.
Qed.

End SearchFacts.

(* ===================================================================== *)
(** ** Catalog and index in step *)
(* ===================================================================== *)

Section InvariantFacts.
Context `{Ext : Externals} `{Con : !HnswContract}.
Import Store Spec.
#[local] Open Scope list_scope.

Lemma Inv_constructed : Inv constructed.
Proof. split; [intros i d H; discriminate | reflexivity]. Qed.

Lemma Inv_ready m : Inv (ready m).
Proof.
  split; [intros i d H; discriminate|].
  simpl. eexists. split; [reflexivity | apply labels_new].
Qed.

Lemma catalog_ok_snoc docs d :
  (forall i d', docs !! i = Some d' -> id d' = i /\ is_Some (vector d')) ->
  id d = List.length docs -> is_Some (vector d) ->
  forall i d', (docs ++ [d]) !! i = Some d' ->
    id d' = i /\ is_Some (vector d').
Proof.
  intros Hok Hid Hv i d' Hi.
  apply lookup_app_Some in Hi as [Hi | [Hlen Hi]]; [now apply Hok|].
  apply list_lookup_singleton_Some in Hi as [Hz <-].
  split; [lia | exact Hv].
Qed.

(** The loop keeps catalog and index in step, also when the library
    throws in the middle of it. *)
Lemma addChunks_Inv chunks : forall st path i,
  initialized st = true -> Inv st ->
  Inv (fst (addChunks st path i chunks)).
Proof.
  induction chunks as [|c rest IH]; intros st path i Hinit HI; simpl;
    [exact HI|].
  destruct (generateEmbedding st c) as [e|]; [|now apply IH].
  destruct HI as [Hcat Hidx]. unfold index_ok in Hidx. rewrite Hinit in Hidx.
  destruct Hidx as (ix & Hix & Hlab). rewrite Hix.
  destruct (addPoint ix e _) as [ix'|] eqn:Hadd; simpl.
  - apply IH; [exact Hinit|]. split.
    + unfold catalog_ok; simpl. apply catalog_ok_snoc; simpl; eauto.
    + unfold index_ok; simpl. rewrite Hinit. exists ix'.
      split; [reflexivity|].
      rewrite (labels_addPoint _ _ _ _ Hadd), Hlab.
      rewrite length_app; simpl. rewrite Nat.add_1_r, seq_S; simpl.
      rewrite list_to_set_snoc_L. apply (comm_L (∪)).
  - split; [exact Hcat|]. unfold index_ok. rewrite Hinit. eauto.
Qed.

Lemma addDocument_Inv st path text :
  Inv st -> Inv (fst (addDocument st path text)).
Proof.
  intros HI. unfold addDocument.
  destruct (initialized st) eqn:Hinit; [|exact HI].
  apply addChunks_Inv; [exact Hinit|].
  destruct HI as [Hcat Hidx]. split; [exact Hcat|].
  unfold index_ok in *; simpl. now rewrite Hinit in *.
Qed.

Lemma clear_Inv st : Inv (clear st).
Proof.
  split; [intros i d H; discriminate|].
  unfold index_ok; simpl. destruct (initialized st); [|reflexivity].
  eexists. split; [reflexivity | apply labels_new].
Qed.

(** Under the invariant the index of an initialised store holds as many
    labels as the catalog holds documents. *)
Lemma Inv_count st ix :
  Inv st -> initialized st = true -> index st = Some ix ->
  size (labels ix) = List.length (documents st).
Proof.
  intros [_ Hidx] Hinit Hix. unfold index_ok in Hidx.
  rewrite Hinit in Hidx. destruct Hidx as (ix' & Hix' & Hlab).
  assert (ix' = ix) by congruence. subst ix'.
  rewrite Hlab, size_list_to_set by apply NoDup_seq.
  apply length_seq.
Qed.

(** Under the invariant every label the library answers a query with is
    the position of a document of the catalog. *)
Lemma Inv_hydrates st ix q k found idx :
  Inv st -> initialized st = true -> index st = Some ix ->
  searchKnn ix q k = Some found -> idx ∈ neighbors found ->
  exists d, documents st !! idx = Some d /\ id d = idx /\ is_Some (vector d).
Proof.
  intros [Hcat Hidx] Hinit Hix Hk Hin.
  unfold index_ok in Hidx. rewrite Hinit in Hidx.
  destruct Hidx as (ix' & Hix' & Hlab).
  assert (ix' = ix) by congruence. subst ix'.
  apply (searchKnn_labels _ _ _ _ Hk) in Hin.
  rewrite Hlab, elem_of_list_to_set, elem_of_seq in Hin.
  destruct (lookup_lt_is_Some_2 (documents st) idx) as [doc Hdoc]; [lia|].
  exists doc. destruct (Hcat idx doc Hdoc) as [Hid Hv]. auto.
Qed.

(** C10. [addDocument] and [clear] keep the invariant: the document at
    position [i] has the id [i] and a vector, and the labels in the index
    are the positions of the catalog, as many as there are documents.
    [search] assigns no field of the store; under the invariant every label
    the index library answers with is the position of a document of the
    catalog, and every result [search] returns carries that document, with
    its vector. *)
Theorem operations_preserve_invariant st :
  Inv st ->
  (forall path text, Inv (fst (addDocument st path text)))
  /\ Inv (clear st)
  /\ (forall ix, initialized st = true -> index st = Some ix ->
        size (labels ix) = List.length (documents st))
  /\ (forall ix q k found idx,
        initialized st = true -> index st = Some ix ->
        searchKnn ix q k = Some found -> idx ∈ neighbors found ->
        exists d, documents st !! idx = Some d
          /\ id d = idx /\ is_Some (vector d))
  /\ (forall query numResults threshold results,
        search st query numResults threshold = Returned results ->
        forall r, r ∈ results ->
          exists d, document r = Some d
            /\ documents st !! id d = Some d
            /\ is_Some (vector d)).
Proof.
  intros HI.
  split; [intros; now apply addDocument_Inv|].
  split; [apply clear_Inv|].
  split; [intros; now apply Inv_count|].
  split; [intros; eapply Inv_hydrates; eauto|].
  intros query numResults threshold results Hs r Hr.
  destruct (search_result_origin _ _ _ _ _ Hs r Hr)
    as ((ix & q & found & i & idx & d & Hix & _ & Hk & Hi & _ & _ & Hdoc) & _).
  assert (Hinit : initialized st = true).
  { unfold search in Hs. destruct (initialized st); [reflexivity|discriminate]. }
  destruct (Inv_hydrates st ix q _ found idx HI Hinit Hix Hk)
    as (doc & Hdoc' & Hid & Hv).
  { apply list_elem_of_lookup. eauto. }
  exists doc. rewrite Hdoc, Hid. auto.
Qed.

End InvariantFacts.


(* ===================================================================== *)
(** ** The store on the test doubles *)
(* ===================================================================== *)

Section DoubleFacts.
Import Store Spec Double.
#[local] Open Scope list_scope.

Lemma insert_by_distance_elem p l x :
  x ∈ insert_by_distance p l -> x = p \/ x ∈ l.
Proof.
  induction l as [|q r IH]; simpl; intros Hx.
  - apply list_elem_of_singleton in Hx. now left.
  - destruct (PrimFloat.leb (snd p) (snd q)).
    + apply elem_of_cons in Hx as [->|Hx]; [now left | now right].
    + apply elem_of_cons in Hx as [->|Hx]; [right; left|].
      destruct (IH Hx) as [->|Hr]; [now left | right; now right].
Qed.

Lemma closest_first_elem l x : x ∈ closest_first l -> x ∈ l.
Proof.
  induction l as [|p r IH]; simpl; intros Hx; [exact Hx|].
  apply insert_by_distance_elem in Hx as [->|Hx]; [left | right; auto].
Qed.

Lemma take_below_elem k l : forall i x, x ∈ take_below k i l -> x ∈ l.
Proof.
  induction l as [|p r IH]; simpl; intros i x Hx; [exact Hx|].
  destruct (PrimFloat.ltb (Num.of_nat i) k); [|inversion Hx].
  apply elem_of_cons in Hx as [->|Hx]; [left | right; eauto].
Qed.

Lemma brute_search_labels a q k r :
  brute_search a q k = Some r ->
  forall n, n ∈ neighbors r -> n ∈ brute_labels a.
Proof.
  unfold brute_search. intros [= <-] n Hn. simpl in Hn.
  apply list_elem_of_fmap in Hn as (p & -> & Hp).
  apply take_below_elem, closest_first_elem in Hp.
  apply list_elem_of_fmap in Hp as (p' & -> & Hp'). simpl.
  unfold brute_labels. apply elem_of_list_to_set.
  apply list_elem_of_fmap. eauto.
Qed.

Lemma brute_add_labels a v l a' :
  brute_add a v l = Some a' -> brute_labels a' = {[ l ]} ∪ brute_labels a.
Proof.
  unfold brute_add, brute_labels.
  destruct (List.length (points a) <? capacity a)%nat; [|discriminate].
  intros [= <-]. simpl. rewrite map_app. simpl.
  rewrite list_to_set_snoc_L. apply (comm_L (∪)).
Qed.

(** The brute-force index keeps the contract of the index library. *)
#[export] Instance brute_contract : HnswContract := {|
  labels := brute_labels;
  labels_new := fun _ _ => eq_refl;
  labels_addPoint := brute_add_labels;
  searchKnn_labels := brute_search_labels;
|}.

Example store_one_documents : documents store_one = [doc_one].
Proof. vm_compute. reflexivity. Qed.

Example scenario_A :
  getStats store_one = MkStats 1 {[ ".txt" := 1%nat ]}.
Proof. vm_compute. reflexivity. Qed.

(** Witness of C4: a file of two chunks on the empty store. *)
Lemma addDocument_counts_the_file_once_witness :
  initialized (ready pipeline) = true
  /\ (fileTypes (fst (addDocument (ready pipeline) "/docs/b.txt" two_chunks))
      = <[ Js.toLowerCase (extname "/docs/b.txt") :=
             (default 0%nat
                (fileTypes (ready pipeline)
                   !! Js.toLowerCase (extname "/docs/b.txt")) + 1)%nat ]>
          (fileTypes (ready pipeline))
      /\ exists new,
           documents (fst (addDocument (ready pipeline) "/docs/b.txt" two_chunks))
           = documents (ready pipeline) ++ new
           /\ appended (ready pipeline) "/docs/b.txt" 0
                (Chunker.chunkText two_chunks Chunker.defaultMaxChunkSize) new).
Proof.
  split; [reflexivity|].
  apply (addDocument_counts_the_file_once (ready pipeline) "/docs/b.txt"
           two_chunks).
  reflexivity.
Defined.

(** C4 (counterexample). On the empty store a file of two chunks, both
    embedded and appended, moves the count of its extension from nothing
    to one, not to two. *)
Lemma addDocument_two_chunks_one_count :
  List.length (documents (ready pipeline)) = 0%nat
  /\ fileTypes (ready pipeline) !! ".txt" = None
  /\ List.length
       (documents (fst (addDocument (ready pipeline) "/docs/b.txt" two_chunks)))
     = 2%nat
  /\ fileTypes (fst (addDocument (ready pipeline) "/docs/b.txt" two_chunks))
       !! ".txt" = Some 1%nat.
Proof. repeat split; vm_compute; reflexivity. Qed.

(** Witness of C5: the store of one document and a query at distance one
    from it. *)
Lemma search_scores_and_threshold_witness :
  search store_one "hello world!" 5%float 0.25%float = Returned [result_one]
  /\ result_one ∈ [result_one]
  /\ ((exists ix q found i idx d,
          index store_one = Some ix
          /\ generateEmbedding store_one "hello world!" = Some q
          /\ searchKnn ix q
               (Num.Math_min 5%float
                  (Num.of_nat (List.length (documents store_one))))
             = Some found
          /\ neighbors found !! i = Some idx
          /\ distances found !! i = Some d
          /\ score result_one = PrimFloat.div 1%float (PrimFloat.add 1%float d)
          /\ document result_one = documents store_one !! idx)
      /\ Num.geb (score result_one) 0.25%float = true
      /\ PrimFloat.ltb (score result_one) 0.25%float = false).
Proof.
  assert (Hs : search store_one "hello world!" 5%float 0.25%float
               = Returned [result_one]) by (vm_compute; reflexivity).
  assert (Hr : result_one ∈ [result_one]) by (apply list_elem_of_here).
  split; [exact Hs|]. split; [exact Hr|].
  exact (search_scores_and_threshold store_one "hello world!" 5%float
           0.25%float [result_one] Hs result_one Hr).
Defined.

(** C6 (counterexample). On the empty store, with a pipeline that gives no
    embedding at all, [search] returns the empty array and throws
    nothing. *)
Lemma search_empty_store_broken_pipeline :
  initialized (ready broken) = true
  /\ generateEmbedding (ready broken) "query" = None
  /\ search (ready broken) "query" 5%float 0.5%float = Returned [].
Proof. repeat split; reflexivity. Qed.

(** Witness of C6: the store of one document and a query the pipeline
    refuses. *)
Lemma search_throws_without_query_embedding_witness :
  initialized store_one = true
  /\ index store_one <> None
  /\ documents store_one <> []
  /\ generateEmbedding store_one "#query" = None
  /\ search store_one "#query" 5%float 0.5%float = Threw EmbeddingFailed.
Proof.
  assert (H1 : initialized store_one = true) by reflexivity.
  assert (H2 : index store_one <> None) by (vm_compute; discriminate).
  assert (H3 : documents store_one <> []) by (vm_compute; discriminate).
  assert (H4 : generateEmbedding store_one "#query" = None) by reflexivity.
  split; [exact H1|]. split; [exact H2|]. split; [exact H3|].
  split; [exact H4|].
  exact (search_throws_without_query_embedding store_one "#query" 5%float
           0.5%float H1 H2 H3 H4).
Defined.

Example three_chunks_chunked :
  Chunker.chunkText three_chunks Chunker.defaultMaxChunkSize
  = [repeat_char "a" 300] ++ String "#" (repeat_char "b" 300)
      :: [repeat_char "c" 400].
Proof. vm_compute. reflexivity. Qed.

(** The second of three chunks is skipped, the other two are stored. *)
Example three_chunks_stored :
  map chunkId
    (documents (fst (addDocument (ready pipeline) "/docs/c.txt" three_chunks)))
  = [0%nat; 2%nat]
  /\ map id
       (documents (fst (addDocument (ready pipeline) "/docs/c.txt" three_chunks)))
     = [0%nat; 1%nat].
Proof. split; vm_compute; reflexivity. Qed.

(** Witness of C7: three chunks, the second of which the pipeline
    refuses. *)
Lemma addDocument_skips_failed_chunk_witness :
  initialized (ready pipeline) = true
  /\ Chunker.chunkText three_chunks Chunker.defaultMaxChunkSize
     = [repeat_char "a" 300] ++ String "#" (repeat_char "b" 300)
         :: [repeat_char "c" 400]
  /\ generateEmbedding (ready pipeline) (String "#" (repeat_char "b" 300))
     = None
  /\ (let st0 :=
        with_fileTypes
          (bump (Js.toLowerCase (extname "/docs/c.txt"))
             (fileTypes (ready pipeline)))
          (ready pipeline) in
      let mid := addChunks st0 "/docs/c.txt" 0 [repeat_char "a" 300] in
      let fin := addDocument (ready pipeline) "/docs/c.txt" three_chunks in
      (forall s i, embeddingModel s = embeddingModel (ready pipeline) ->
         addChunks s "/docs/c.txt" i
           (String "#" (repeat_char "b" 300) :: [repeat_char "c" 400])
         = addChunks s "/docs/c.txt" (S i) [repeat_char "c" 400])
      /\ fin = match mid with
               | (st1, Returned _) =>
                   addChunks st1 "/docs/c.txt"
                     (S (List.length [repeat_char "a" 300]))
                     [repeat_char "c" 400]
               | r => r
               end
      /\ (exists kept,
            documents (fst mid) = documents (ready pipeline) ++ kept)
      /\ (exists more, documents (fst fin) = documents (fst mid) ++ more)
      /\ index_grows (index (ready pipeline)) (index (fst mid))
      /\ index_grows (index (fst mid)) (index (fst fin))
      /\ (forall new d,
            documents (fst fin) = documents (ready pipeline) ++ new ->
            d ∈ new -> chunkId d <> List.length [repeat_char "a" 300])).
Proof.
  assert (H1 : initialized (ready pipeline) = true) by reflexivity.
  assert (H2 : Chunker.chunkText three_chunks Chunker.defaultMaxChunkSize
               = [repeat_char "a" 300] ++ String "#" (repeat_char "b" 300)
                   :: [repeat_char "c" 400])
    by (vm_compute; reflexivity).
  assert (H3 : generateEmbedding (ready pipeline)
                 (String "#" (repeat_char "b" 300)) = None)
    by reflexivity.
  split; [exact H1|]. split; [exact H2|]. split; [exact H3|].
  exact (addDocument_skips_failed_chunk (ready pipeline) "/docs/c.txt"
           three_chunks [repeat_char "a" 300]
           (String "#" (repeat_char "b" 300)) [repeat_char "c" 400]
           H1 H2 H3).
Defined.

(** Witness of C8: the store of one document, cleared, then two files. *)
Lemma catalog_ids_are_consecutive_witness :
  documents (clear store_one) = []
  /\ map id
       (documents
          (addDocuments (clear store_one)
             [("/docs/c.txt", three_chunks); ("/docs/b.txt", two_chunks)]))
     = seq 0
         (List.length
            (documents
               (addDocuments (clear store_one)
                  [("/docs/c.txt", three_chunks); ("/docs/b.txt", two_chunks)]))).
Proof.
  split; [reflexivity|].
  apply (catalog_ids_are_consecutive (clear store_one)
           [("/docs/c.txt", three_chunks); ("/docs/b.txt", two_chunks)]).
  reflexivity.
Defined.

Example ids_after_clear :
  map id
    (documents
       (addDocuments (clear store_one)
          [("/docs/c.txt", three_chunks); ("/docs/b.txt", two_chunks)]))
  = [0%nat; 1%nat; 2%nat; 3%nat].
Proof. vm_compute. reflexivity. Qed.

Lemma Inv_store_one : Inv store_one.
Proof.
  split.
  - intros i d. rewrite store_one_documents.
    destruct i as [|i]; simpl; [|intros H; discriminate].
    intros [= <-]. split; [reflexivity | eexists; reflexivity].
  - unfold index_ok. change (initialized store_one) with true.
    eexists. split; vm_compute; reflexivity.
Qed.

(** Witness of C10: the store of one document. *)
Lemma operations_preserve_invariant_witness :
  Inv store_one
  /\ ((forall path text, Inv (fst (addDocument store_one path text)))
      /\ Inv (clear store_one)
      /\ (forall ix, initialized store_one = true ->
            index store_one = Some ix ->
            size (labels ix) = List.length (documents store_one))
      /\ (forall ix q k found idx,
            initialized store_one = true -> index store_one = Some ix ->
            searchKnn ix q k = Some found -> idx ∈ neighbors found ->
            exists d, documents store_one !! idx = Some d
              /\ id d = idx /\ is_Some (vector d))
      /\ (forall query numResults threshold results,
            search store_one query numResults threshold = Returned results ->
            forall r, r ∈ results ->
              exists d, document r = Some d
                /\ documents store_one !! id d = Some d
                /\ is_Some (vector d))).
Proof.
  split; [exact Inv_store_one|].
  exact (operations_preserve_invariant store_one Inv_store_one).
Defined.

End DoubleFacts.


(* ===================================================================== *)
(** ** More on the chunker *)
(* ===================================================================== *)

Section ChunkerMore.
Import Js Chunker Paragraphs.
#[local] Open Scope list_scope.

Lemma truthy_true_iff s : truthy s = true <-> s <> "".
Proof. destruct s; simpl; split; congruence. Qed.

Lemma truthy_false_iff s : truthy s = false <-> s = "".
Proof. destruct s; simpl; split; congruence. Qed.

Lemma append_nil_r (s : string) : (s ++ "")%string = s.
Proof.
  induction s as [|c s IH]; [reflexivity|].
  change (String c (s ++ "")%string = String c s). now rewrite IH.
Qed.

Lemma append_assoc (s1 s2 s3 : string) :
  ((s1 ++ s2) ++ s3 = s1 ++ (s2 ++ s3))%string.
Proof.
  induction s1 as [|c s1 IH]; [reflexivity|].
  change (String c ((s1 ++ s2) ++ s3)%string = String c (s1 ++ (s2 ++ s3))%string).
  now rewrite IH.
Qed.

Lemma length_substring0 n s :
  (String.length (String.substring 0 n s) <= n)%nat.
Proof.
  revert s. induction n as [|n IH]; intros [|c s]; simpl; try lia.
  specialize (IH s). lia.
Qed.

Lemma substring0_nonempty n c s :
  String.substring 0 (S n) (String c s) <> "".
Proof. simpl. discriminate. Qed.

(** *** Splitting *)

Lemma split_go_nonempty s : forall skip cur, split_go skip cur s <> [].
Proof.
  induction s as [|c t IH]; intros skip cur; cbn [split_go]; [discriminate|].
  destruct skip as [|k]; [|apply IH].
  destruct (match_len (String c t)); [discriminate | apply IH].
Qed.

Lemma split_go_no_separator s : forall cur,
  has_separator s = false -> split_go 0 cur s = [(cur ++ s)%string].
Proof.
  induction s as [|c t IH]; intros cur Hs.
  - now rewrite append_nil_r.
  - change (split_go 0 cur (String c t))
      with (match match_len (String c t) with
            | Some n => cur :: split_go (Nat.pred n) "" t
            | None => split_go 0 (cur ++ String c "")%string t
            end).
    change (has_separator (String c t))
      with (match match_len (String c t) with
            | Some _ => true
            | None => has_separator t
            end) in Hs.
    destruct (match_len (String c t)); [discriminate|].
    rewrite (IH _ Hs), append_assoc. reflexivity.
Qed.

Lemma split_go_separator s : forall cur,
  has_separator s = true -> (2 <= List.length (split_go 0 cur s))%nat.
Proof.
  induction s as [|c t IH]; intros cur Hs;
    cbn [split_go has_separator] in *; [discriminate|].
  destruct (match_len (String c t)) as [n|].
  - cbn [List.length]. pose proof (split_go_nonempty t (Nat.pred n) "") as Hne.
    destruct (split_go (Nat.pred n) "" t); [congruence | simpl; lia].
  - now apply IH.
Qed.

(** X1. [text.split(/\n\s*\n/)] never gives an empty array, and it gives
    the text itself as the only paragraph exactly when the text holds no
    blank-line separator. *)
Theorem split_paragraphs_single text :
  split_paragraphs text <> []
  /\ (has_separator text = false -> split_paragraphs text = [text])
  /\ (has_separator text = true ->
      (2 <= List.length (split_paragraphs text))%nat).
Proof.
  split; [apply split_go_nonempty|]. split.
  - intros Hs. unfold split_paragraphs. now rewrite split_go_no_separator.
  - apply split_go_separator.
Qed.

(** *** The loop *)

(** A property of the loop state that holds at the start and that every
    turn keeps holds at the end. *)
Lemma loop_invariant (P : acc -> Prop) m ps :
  P (Acc [] "") ->
  (forall a p, p ∈ ps -> P a -> P (step m a p)) ->
  P (loop m ps).
Proof.
  unfold loop. generalize (Acc [] "").
  induction ps as [|p ps IH]; intros a Ha Hstep; simpl; [exact Ha|].
  apply IH.
  - apply Hstep; [left | exact Ha].
  - intros a' p' Hp'. apply Hstep. now right.
Qed.

(** The three ways a turn can go. *)
Lemma step_cases m a p :
  (truthy (currentChunk a) = true
   /\ (Z.of_nat (String.length (currentChunk a) + String.length p) <= m)%Z
   /\ step m a p = Acc (chunks a) (currentChunk a ++ sep ++ p)%string)
  \/ (truthy (currentChunk a) = false
      /\ (Z.of_nat (String.length p) <= m)%Z
      /\ step m a p = Acc (chunks a) p)
  \/ (truthy (currentChunk a) = true
      /\ (m < Z.of_nat (String.length (currentChunk a) + String.length p))%Z
      /\ step m a p = Acc (chunks a ++ [currentChunk a]) p)
  \/ (truthy (currentChunk a) = false
      /\ (m < Z.of_nat (String.length p))%Z
      /\ step m a p = Acc (chunks a ++ [substring0 m p]) "").
Proof.
  unfold step. rewrite length_append.
  destruct (truthy (currentChunk a)) eqn:Ht.
  - destruct (Z.leb_spec
                (Z.of_nat (String.length (currentChunk a) + String.length p)) m).
    + left. auto.
    + right; right; left. auto.
  - apply truthy_false_iff in Ht. rewrite Ht in *. simpl.
    destruct (Z.leb_spec (Z.of_nat (String.length p)) m).
    + right; left. auto.
    + right; right; right. auto.
Qed.

Lemma elem_of_flush a c :
  c ∈ flush a -> c ∈ chunks a \/ (c = currentChunk a /\ c <> "").
Proof.
  unfold flush. destruct (truthy (currentChunk a)) eqn:Ht; [|now left].
  intros Hc. apply elem_of_app in Hc as [Hc|Hc]; [now left|].
  apply list_elem_of_singleton in Hc. right. split; [exact Hc|].
  subst c. now apply truthy_true_iff.
Qed.

(** X2. With a limit that is not negative, a chunk is longer than
    [maxChunkSize + 2] only if it is a whole paragraph of the text that is
    itself longer than [maxChunkSize]; so when no paragraph is longer than
    the limit, every chunk has at most [maxChunkSize + 2] characters. *)
Theorem chunk_length_bound text m :
  (0 <= m)%Z ->
  (forall c, c ∈ chunkText text m ->
     (Z.of_nat (String.length c) <= m + 2)%Z
     \/ (c ∈ split_paragraphs text /\ (m < Z.of_nat (String.length c))%Z))
  /\ ((forall p, p ∈ split_paragraphs text ->
         (Z.of_nat (String.length p) <= m)%Z) ->
      forall c, c ∈ chunkText text m ->
        (Z.of_nat (String.length c) <= m + 2)%Z).
Proof.
  intros Hm.
  set (ok := fun c : string =>
         (Z.of_nat (String.length c) <= m + 2)%Z
         \/ c ∈ split_paragraphs text).
  assert (Hloop : (forall c, c ∈ chunks (loop m (split_paragraphs text)) -> ok c)
                  /\ ok (currentChunk (loop m (split_paragraphs text)))).
  { apply (loop_invariant
             (fun a => (forall c, c ∈ chunks a -> ok c) /\ ok (currentChunk a))).
    - split; [intros c Hc; inversion Hc | left; simpl; lia].
    - intros a p Hp [Hch Hcur].
      destruct (step_cases m a p)
        as [(Ht & Hle & ->) | [(Ht & Hle & ->) | [(Ht & Hlt & ->) | (Ht & Hlt & ->)]]];
        simpl.
      + split; [exact Hch|]. left.
        rewrite !length_append. change (String.length sep) with 2%nat. lia.
      + split; [exact Hch|]. left. lia.
      + split; [|now right].
        intros c Hc. apply elem_of_app in Hc as [Hc|Hc]; [now apply Hch|].
        apply list_elem_of_singleton in Hc. now subst c.
      + split; [|left; simpl; lia].
        intros c Hc. apply elem_of_app in Hc as [Hc|Hc]; [now apply Hch|].
        apply list_elem_of_singleton in Hc. subst c. left.
        unfold substring0.
        pose proof (length_substring0 (Z.to_nat m) p). lia. }
  assert (Hall : forall c, c ∈ chunkText text m -> ok c).
  { intros c Hc. unfold chunkText in Hc.
    apply elem_of_flush in Hc as [Hc | [-> _]]; [now apply Hloop | apply Hloop]. }
  split.
  - intros c Hc. destruct (Hall c Hc) as [Hle | Hin]; [now left|].
    destruct (Z.le_gt_cases (Z.of_nat (String.length c)) m); [left; lia|].
    right. split; [exact Hin | lia].
  - intros Hps c Hc. destruct (Hall c Hc) as [Hle | Hin]; [exact Hle|].
    specialize (Hps c Hin). lia.
Qed.

(** X3. With a limit of at least one, no chunk is empty. *)
Theorem chunks_are_not_empty text m c :
  (1 <= m)%Z -> c ∈ chunkText text m -> c <> "".
Proof.
  intros Hm Hc. unfold chunkText in Hc.
  apply elem_of_flush in Hc as [Hc | [_ Hne]]; [|exact Hne].
  revert c Hc.
  apply (loop_invariant (fun a => forall c, c ∈ chunks a -> c <> "")).
  - intros c Hc. inversion Hc.
  - intros a p _ Hch.
    destruct (step_cases m a p)
      as [(Ht & Hle & ->) | [(Ht & Hle & ->) | [(Ht & Hlt & ->) | (Ht & Hlt & ->)]]];
      simpl; try exact Hch;
      intros c Hc; apply elem_of_app in Hc as [Hc|Hc]; try (now apply Hch);
      apply list_elem_of_singleton in Hc; subst c.
    + now apply truthy_true_iff.
    + unfold substring0. destruct p as [|ch p]; [simpl in Hlt; lia|].
      destruct (Z.to_nat m) as [|n] eqn:Hn; [lia|].
      apply substring0_nonempty.
Qed.

Lemma length_flush_step m a p :
  (List.length (flush (step m a p)) <= S (List.length (flush a)))%nat.
Proof.
  destruct (step_cases m a p)
    as [(Ht & Hle & ->) | [(Ht & Hle & ->) | [(Ht & Hlt & ->) | (Ht & Hlt & ->)]]];
    unfold flush; simpl; rewrite Ht;
    repeat match goal with
           | |- context [truthy ?x] => destruct (truthy x)
           end;
    rewrite ?length_app; simpl; lia.
Qed.

(** X4. There are never more chunks than paragraphs. *)
Theorem chunks_no_more_than_paragraphs text m :
  (List.length (chunkText text m) <= List.length (split_paragraphs text))%nat.
Proof.
  unfold chunkText, loop.
  assert (H : forall ps a,
    (List.length (flush (fold_left (step m) ps a))
     <= List.length (flush a) + List.length ps)%nat).
  { induction ps as [|p ps IH]; intros a; simpl; [lia|].
    specialize (IH (step m a p)).
    pose proof (length_flush_step m a p). lia. }
  apply (H (split_paragraphs text) (Acc [] "")).
Qed.

(** X5. A text with no blank-line separator is one paragraph: if it is not
    empty and fits the limit it is the only chunk; if it is longer than the
    limit the only chunk is its first [maxChunkSize] characters and the
    rest of the text is in no chunk. *)
Theorem chunkText_single_paragraph text m :
  has_separator text = false ->
  (text <> "" -> (Z.of_nat (String.length text) <= m)%Z ->
   chunkText text m = [text])
  /\ ((m < Z.of_nat (String.length text))%Z ->
      chunkText text m = [substring0 m text]).
Proof.
  intros Hs. unfold chunkText, loop.
  unfold split_paragraphs. rewrite (split_go_no_separator text "" Hs).
  change ("" ++ text)%string with text. simpl. split.
  - intros Hne Hle.
    destruct (step_cases m (Acc [] "") text)
      as [(Ht & _) | [(_ & _ & ->) | [(Ht & _) | (_ & Hlt & _)]]];
      try discriminate; [|simpl in Hlt; lia].
    unfold flush; simpl. apply truthy_true_iff in Hne. now rewrite Hne.
  - intros Hlt.
    destruct (step_cases m (Acc [] "") text)
      as [(Ht & _) | [(_ & Hle & _) | [(Ht & _) | (_ & _ & ->)]]];
      try discriminate; [simpl in Hle; lia|].
    reflexivity.
Qed.

(** *** Joining the chunks again *)

Lemma concat_app l1 l2 :
  l1 <> [] -> l2 <> [] ->
  String.concat sep (l1 ++ l2)
  = (String.concat sep l1 ++ sep ++ String.concat sep l2)%string.
Proof.
  intros H1 H2. induction l1 as [|x [|y l1] IH]; [congruence| |].
  - destruct l2 as [|z l2]; [congruence | reflexivity].
  - change (String.concat sep ((x :: y :: l1) ++ l2))
      with (x ++ sep ++ String.concat sep ((y :: l1) ++ l2))%string.
    rewrite IH by discriminate.
    change (String.concat sep (x :: y :: l1))
      with (x ++ sep ++ String.concat sep (y :: l1))%string.
    now rewrite !append_assoc.
Qed.

Lemma concat_snoc_append l x y :
  String.concat sep (l ++ [(x ++ y)%string])
  = (String.concat sep (l ++ [x]) ++ y)%string.
Proof.
  destruct l as [|z l]; [reflexivity|].
  rewrite !concat_app by discriminate. simpl.
  now rewrite !append_assoc.
Qed.

Lemma flush_step_fits m a p :
  fits m p ->
  flush (step m a p) <> []
  /\ String.concat sep (flush (step m a p))
     = String.concat sep (flush a ++ [p]).
Proof.
  intros [Hne Hle]. apply truthy_true_iff in Hne.
  destruct (step_cases m a p)
    as [(Ht & _ & ->) | [(Ht & _ & ->) | [(Ht & _ & ->) | (Ht & Hlt & _)]]];
    [| | |lia]; unfold flush; simpl; rewrite ?Ht, ?Hne.
  - assert (Hj : truthy (currentChunk a ++ sep ++ p)%string = true).
    { apply truthy_true_iff in Ht. apply truthy_true_iff.
      destruct (currentChunk a); [congruence | discriminate]. }
    rewrite Hj. split; [now destruct (chunks a)|].
    rewrite concat_snoc_append.
    rewrite (concat_app (chunks a ++ [currentChunk a]) [p]);
      [|now destruct (chunks a) | discriminate].
    simpl. reflexivity.
  - split; [now destruct (chunks a) | reflexivity].
  - split; [now destruct (chunks a ++ [currentChunk a]) eqn:E;
              [destruct (chunks a); discriminate|] | reflexivity].
Qed.

Lemma concat_flush_fits m ps : forall a,
  Forall (fits m) ps ->
  String.concat sep (flush (fold_left (step m) ps a))
  = String.concat sep (flush a ++ ps).
Proof.
  induction ps as [|p ps IH]; intros a Hps; simpl.
  - now rewrite app_nil_r.
  - inversion Hps as [|? ? Hp Hps']; subst.
    rewrite (IH _ Hps').
    destruct (flush_step_fits m a p Hp) as [Hne Heq].
    destruct ps as [|q ps].
    + rewrite app_nil_r. exact Heq.
    + rewrite (concat_app _ (q :: ps) Hne) by discriminate.
      rewrite Heq.
      replace (flush a ++ p :: q :: ps) with ((flush a ++ [p]) ++ q :: ps)
        by now rewrite <- app_assoc.
      rewrite (concat_app (flush a ++ [p]) (q :: ps));
        [reflexivity | now destruct (flush a) | discriminate].
Qed.

(** X6. When every paragraph of the text is non-empty and no longer than
    the limit, nothing is lost: the chunks joined by blank lines are the
    paragraphs joined by blank lines. *)
Theorem chunks_keep_the_paragraphs text m :
  Forall (fits m) (split_paragraphs text) ->
  String.concat sep (chunkText text m)
  = String.concat sep (split_paragraphs text).
Proof.
  intros Hps. unfold chunkText, loop.
  now rewrite (concat_flush_fits m _ _ Hps).
Qed.

End ChunkerMore.


(* ===================================================================== *)
(** ** More on the store *)
(* ===================================================================== *)

Section StoreMore.
Context `{Ext : Externals}.
Import Store Spec.
#[local] Open Scope list_scope.

(** *** The list of indexed files *)

Lemma uniqueFiles_fold docs : forall seen,
  NoDup seen ->
  let files :=
    fold_left
      (fun uniqueFiles doc =>
         if decide (file doc ∈ uniqueFiles) then uniqueFiles
         else uniqueFiles ++ [file doc])
      docs seen in
  NoDup files
  /\ forall path, path ∈ files <-> path ∈ seen \/ exists d, d ∈ docs /\ file d = path.
Proof.
  induction docs as [|d docs IH]; intros seen Hseen; simpl.
  - split; [exact Hseen|]. intros path. split; [now left|].
    intros [H|(d & Hd & _)]; [exact H | inversion Hd].
  - destruct (decide (file d ∈ seen)) as [Hin|Hout].
    + destruct (IH seen Hseen) as [Hnd Hmem]. split; [exact Hnd|].
      intros path. rewrite Hmem. split.
      * intros [H|(d' & Hd' & Hf)]; [now left | right; exists d'; split; [now right | exact Hf]].
      * intros [H|(d' & Hd' & Hf)]; [now left|].
        apply elem_of_cons in Hd' as [-> |Hd']; [left; now rewrite <- Hf | right; eauto].
    + assert (Hseen' : NoDup (seen ++ [file d])).
      { apply NoDup_app. split; [exact Hseen|]. split; [|apply NoDup_singleton].
        intros x Hx Hx'. apply list_elem_of_singleton in Hx'. now subst x. }
      destruct (IH _ Hseen') as [Hnd Hmem]. split; [exact Hnd|].
      intros path. rewrite Hmem, elem_of_app, list_elem_of_singleton. split.
      * intros [[H| ->]|(d' & Hd' & Hf)];
          [now left | right; exists d; split; [left | reflexivity]
          | right; exists d'; split; [now right | exact Hf]].
      * intros [H|(d' & Hd' & Hf)]; [now left; left|].
        apply elem_of_cons in Hd' as [-> |Hd']; [left; right; now rewrite Hf | right; eauto].
Qed.

Lemma indexed_files_membership (st : t) path :
  path ∈ getIndexedFiles st <-> exists d, d ∈ documents st /\ file d = path.
Proof.
  destruct (uniqueFiles_fold (documents st) [] (NoDup_nil_2)) as [_ Hmem].
  unfold getIndexedFiles. rewrite Hmem.
  split; [intros [H|H]; [inversion H | exact H] | now right].
Qed.

Lemma addDocument_counts_the_file_once_frame st path content :
  initialized st = true ->
  fileTypes (fst (addDocument st path content))
  = bump (Js.toLowerCase (extname path)) (fileTypes st).
Proof.
  intros Hinit. unfold addDocument. rewrite Hinit.
  destruct (addChunks_frame
              (Chunker.chunkText content Chunker.defaultMaxChunkSize)
              (with_fileTypes
                 (bump (Js.toLowerCase (extname path)) (fileTypes st)) st)
              path 0) as (_ & _ & _ & Hft).
  rewrite Hft. reflexivity.
Qed.

(** X7. [getIndexedFiles] lists every file that has a document in the
    catalog, each once, and nothing else. *)
Theorem indexed_files_are_the_distinct_files (st : t) :
  NoDup (getIndexedFiles st)
  /\ forall path,
       path ∈ getIndexedFiles st <-> exists d, d ∈ documents st /\ file d = path.
Proof.
  destruct (uniqueFiles_fold (documents st) [] (NoDup_nil_2)) as [Hnd _].
  split; [exact Hnd | apply indexed_files_membership].
Qed.

(** *** What a call that returns has stored *)

Lemma addChunks_returned_texts st0 chunks : forall st path i st',
  embeddingModel st = embeddingModel st0 ->
  addChunks st path i chunks = (st', Returned tt) ->
  exists new,
    documents st' = documents st ++ new
    /\ map text new
       = filter (fun c => is_Some (generateEmbedding st0 c)) chunks.
Proof.
  induction chunks as [|c rest IH]; intros st path i st' Hm Hrun; simpl in Hrun.
  - injection Hrun as <-. exists []. split; [now rewrite app_nil_r | reflexivity].
  - rewrite (generateEmbedding_same st0 st c Hm) in Hrun.
    destruct (generateEmbedding st0 c) as [e|] eqn:He.
    + assert (Hcons : forall s1,
        embeddingModel s1 = embeddingModel st0 ->
        documents s1
        = documents st ++ [Doc (List.length (documents st)) path i c (Some e)] ->
        addChunks s1 path (S i) rest = (st', Returned tt) ->
        exists new,
          documents st' = documents st ++ new
          /\ map text new
             = filter (fun c => is_Some (generateEmbedding st0 c)) (c :: rest)).
      { intros s1 Hm1 Hd1 Hrun1.
        destruct (IH s1 path (S i) st' Hm1 Hrun1) as (new & Hd & Ht).
        exists (Doc (List.length (documents st)) path i c (Some e) :: new).
        split; [rewrite Hd, Hd1; now rewrite <- app_assoc|].
        rewrite filter_cons_True by (rewrite He; eauto).
        simpl. now rewrite Ht. }
      destruct (index st) as [ix|].
      * destruct (addPoint ix e _) as [ix'|]; [|discriminate].
        eapply Hcons; [| |exact Hrun]; [exact Hm | reflexivity].
      * eapply Hcons; [| |exact Hrun]; [exact Hm | reflexivity].
    + destruct (IH st path (S i) st' Hm Hrun) as (new & Hd & Ht).
      exists new. split; [exact Hd|].
      rewrite filter_cons_False; [exact Ht|].
      rewrite He. intros [x Hx]. discriminate.
Qed.

(** X8. When a call of [addDocument] returns, the texts it has appended to
    the catalog are the chunks of the file for which the pipeline gave an
    embedding, all of them and in the order of the chunks. *)
Theorem addDocument_stores_the_embedded_chunks st path content st' :
  addDocument st path content = (st', Returned tt) ->
  exists new,
    documents st' = documents st ++ new
    /\ map text new
       = filter (fun c => is_Some (generateEmbedding st c))
           (Chunker.chunkText content Chunker.defaultMaxChunkSize).
Proof.
  unfold addDocument. destruct (initialized st); [|discriminate].
  intros Hrun.
  destruct (addChunks_returned_texts st _
              (with_fileTypes
                 (bump (Js.toLowerCase (extname path)) (fileTypes st)) st)
              _ _ _ eq_refl Hrun)
    as (new & Hd & Ht).
  exists new. split; [exact Hd | exact Ht].
Qed.

Lemma addChunks_all_skipped chunks : forall st path i,
  (forall c, c ∈ chunks -> generateEmbedding st c = None) ->
  addChunks st path i chunks = (st, Returned tt).
Proof.
  induction chunks as [|c rest IH]; intros st path i Hnone; simpl;
    [reflexivity|].
  rewrite (Hnone c) by left. apply IH. intros c' Hc'. apply Hnone. now right.
Qed.

(** X9. A file none of whose chunks gets an embedding (a file with no
    chunk at all among them) is counted in the statistics although nothing
    of it is stored: the call returns, catalog and index are as before, the
    file is not listed by [getIndexedFiles], and the count of its extension
    is one higher. *)
Theorem addDocument_counts_a_file_it_does_not_store st path content :
  initialized st = true ->
  (forall c, c ∈ Chunker.chunkText content Chunker.defaultMaxChunkSize ->
     generateEmbedding st c = None) ->
  addDocument st path content
  = (with_fileTypes (bump (Js.toLowerCase (extname path)) (fileTypes st)) st,
     Returned tt)
  /\ getIndexedFiles (fst (addDocument st path content)) = getIndexedFiles st
  /\ documentCount (getStats (fst (addDocument st path content)))
     = documentCount (getStats st)
  /\ statsFileTypes (getStats (fst (addDocument st path content)))
       !! Js.toLowerCase (extname path)
     = Some (default 0%nat (fileTypes st !! Js.toLowerCase (extname path)) + 1)%nat.
Proof.
  intros Hinit Hnone.
  assert (Heq : addDocument st path content
    = (with_fileTypes (bump (Js.toLowerCase (extname path)) (fileTypes st)) st,
       Returned tt)).
  { unfold addDocument. rewrite Hinit. apply addChunks_all_skipped. exact Hnone. }
  rewrite Heq. split; [reflexivity|]. split; [reflexivity|].
  split; [reflexivity|]. simpl. unfold bump. apply lookup_insert_eq.
Qed.

(** *** The sum of the statistics *)

Lemma total_bump ext ft :
  Histogram.total (bump ext ft) = S (Histogram.total ft).
Proof.
  assert (Hcomm : forall z1 z2 y : nat,
            (z1 + (z2 + y) = z2 + (z1 + y))%nat) by (intros; lia).
  unfold bump, Histogram.total.
  destruct (ft !! ext) as [n|] eqn:Hext; simpl.
  - rewrite <- (insert_delete_eq ft ext (n + 1)%nat).
    rewrite map_fold_insert_L;
      [|intros; apply Hcomm | apply lookup_delete_eq].
    rewrite <- (insert_delete_id ft ext n Hext) at 2.
    rewrite map_fold_insert_L;
      [|intros; apply Hcomm | apply lookup_delete_eq].
    lia.
  - rewrite map_fold_insert_L; [|intros; apply Hcomm | exact Hext].
    reflexivity.
Qed.

Lemma addDocument_initialized st path content :
  initialized (fst (addDocument st path content)) = initialized st.
Proof.
  unfold addDocument. destruct (initialized st) eqn:Hinit; [|exact Hinit].
  destruct (addChunks_frame
              (Chunker.chunkText content Chunker.defaultMaxChunkSize)
              (with_fileTypes
                 (bump (Js.toLowerCase (extname path)) (fileTypes st)) st)
              path 0) as (_ & Hi & _).
  rewrite Hi. exact Hinit.
Qed.

Lemma addDocument_total st path content :
  initialized st = true ->
  Histogram.total (fileTypes (fst (addDocument st path content)))
  = S (Histogram.total (fileTypes st)).
Proof.
  intros Hinit. unfold addDocument. rewrite Hinit.
  destruct (addChunks_frame
              (Chunker.chunkText content Chunker.defaultMaxChunkSize)
              (with_fileTypes
                 (bump (Js.toLowerCase (extname path)) (fileTypes st)) st)
              path 0) as (_ & _ & _ & Hft).
  rewrite Hft. simpl. apply total_bump.
Qed.

(** X10. On an initialised store the counts of [fileTypes] add up to the
    number of [addDocument] calls made since the last [clear], whether or
    not a call stored anything or threw: every call adds one to the sum,
    and [clear] sets it back to nought. *)
Theorem statistics_count_the_calls st (calls : list (string * string)) :
  initialized st = true ->
  Histogram.total (fileTypes (addDocuments st calls))
  = (Histogram.total (fileTypes st) + List.length calls)%nat
  /\ Histogram.total (fileTypes (addDocuments (clear st) calls))
     = List.length calls.
Proof.
  assert (Hrun : forall calls st, initialized st = true ->
    Histogram.total (fileTypes (addDocuments st calls))
    = (Histogram.total (fileTypes st) + List.length calls)%nat).
  { clear. induction calls as [|[path content] calls IH]; intros st Hinit; simpl;
      [lia|].
    rewrite IH by (now rewrite addDocument_initialized).
    simpl. rewrite addDocument_total by exact Hinit. lia. }
  intros Hinit. split; [now apply Hrun|].
  rewrite Hrun by exact Hinit. reflexivity.
Qed.

(** *** Files listed and files counted *)

Lemma bump_lookup_other ext ext' ft n :
  ft !! ext' = Some (S n) -> exists n', bump ext ft !! ext' = Some (S n').
Proof.
  intros H. unfold bump. destruct (decide (ext = ext')) as [->|Hne].
  - rewrite lookup_insert_eq, H. simpl. exists (n + 1)%nat. reflexivity.
  - rewrite lookup_insert_ne by exact Hne. eauto.
Qed.

Lemma addDocument_listed_is_counted st path content :
  (forall d, d ∈ documents st ->
     exists n, fileTypes st !! Js.toLowerCase (extname (file d)) = Some (S n)) ->
  forall d, d ∈ documents (fst (addDocument st path content)) ->
    exists n,
      fileTypes (fst (addDocument st path content))
        !! Js.toLowerCase (extname (file d)) = Some (S n).
Proof.
  intros Hold d Hd.
  destruct (addDocument_documents st path content) as (new & Hdocs & Hnew).
  destruct (initialized st) eqn:Hinit.
  - rewrite (addDocument_counts_the_file_once_frame st path content Hinit).
    rewrite Hdocs in Hd.
    apply elem_of_app in Hd as [Hd|Hd].
    + destruct (Hold d Hd) as [n Hn]. eapply bump_lookup_other; eauto.
    + apply list_elem_of_lookup in Hd as (j & Hj).
      destruct (Hnew j d Hj) as (_ & -> & _).
      unfold bump. rewrite lookup_insert_eq.
      exists (default 0%nat (fileTypes st !! Js.toLowerCase (extname path))).
      f_equal. lia.
  - unfold addDocument in *. rewrite Hinit in *. simpl in *. now apply Hold.
Qed.

(** X11. From a cleared store, after any run of [addDocument] calls, every
    document of the catalog belongs to a file that the statistics count:
    the extension of a file that [getIndexedFiles] lists has a count of at
    least one. *)
Theorem listed_files_are_counted st (calls : list (string * string)) :
  forall path, path ∈ getIndexedFiles (addDocuments (clear st) calls) ->
    exists n,
      statsFileTypes (getStats (addDocuments (clear st) calls))
        !! Js.toLowerCase (extname path) = Some (S n).
Proof.
  intros path Hpath.
  apply indexed_files_membership in Hpath as (d & Hd & <-).
  revert d Hd. simpl.
  assert (Hstart : forall d, d ∈ documents (clear st) ->
    exists n,
      fileTypes (clear st) !! Js.toLowerCase (extname (file d)) = Some (S n))
    by (intros d Hd; inversion Hd).
  revert Hstart. generalize (clear st).
  induction calls as [|[p c] calls IH]; intros s Hs; simpl; [exact Hs|].
  apply IH. now apply addDocument_listed_is_counted.
Qed.

End StoreMore.


(* ===================================================================== *)
(** ** Properties of the path validation *)
(* ===================================================================== *)

Section PathFacts.
Context `{Node : NodePaths}.
Import Paths.
#[local] Open Scope list_scope.

Lemma prefix_append (d s : string) : String.prefix d (d ++ s)%string = true.
Proof.
  induction d as [|c d IH]; [now destruct s|].
  change (String.prefix (String c d) (String c (d ++ s)%string) = true).
  simpl. destruct (ascii_dec c c); [exact IH | congruence].
Qed.

Lemma isAllowed_extension dirs d s :
  d ∈ dirs -> isAllowed dirs (d ++ s)%string = true.
Proof.
  intros Hd. unfold isAllowed. apply existsb_exists.
  exists d. split; [now apply list_elem_of_In | apply prefix_append].
Qed.

(** X12. [validatePath] throws one of two messages only: that the path is
    outside the allowed directories, or that the parent directory does not
    exist.  The errors thrown inside its [try] blocks (a link whose target
    is outside, a parent directory that is outside, a rejection of
    [fs.realpath]) never reach the caller under their own message. *)
Theorem validatePath_errors dirs requestedPath e :
  validatePath dirs requestedPath = Raised e ->
  (e = Message
         ("Access denied - path outside allowed directories: "
            ++ absolute_of requestedPath
            ++ " not in " ++ String.concat ", " dirs)
   \/ e = Message
            ("Parent directory does not exist: "
               ++ path_dirname (absolute_of requestedPath)))
  /\ e <> FsError
  /\ e <> Message "Access denied - symlink target outside allowed directories"
  /\ e <> Message
            "Access denied - parent directory outside allowed directories".
Proof.
  unfold validatePath. intros H.
  assert (Hform :
    e = Message
          ("Access denied - path outside allowed directories: "
             ++ absolute_of requestedPath
             ++ " not in " ++ String.concat ", " dirs)
    \/ e = Message
             ("Parent directory does not exist: "
                ++ path_dirname (absolute_of requestedPath))).
  { destruct (negb (isAllowed dirs (normalizePath (absolute_of requestedPath)))).
    - left. congruence.
    - destruct (check_real dirs (absolute_of requestedPath)); [discriminate|].
      destruct (check_parent dirs _ _); [discriminate|].
      right. congruence. }
  split; [exact Hform|].
  destruct Hform as [-> | ->]; repeat split; discriminate.
Qed.

(** X13. A link inside an allowed directory that leads outside of them is
    accepted: when the requested path passes the test on its name, its real
    path is outside every allowed directory, and the real path of its
    parent directory is inside one, [validatePath] returns the requested
    path, resolved. *)
Theorem validatePath_accepts_link_to_outside dirs requestedPath real parent :
  isAllowed dirs (normalizePath (absolute_of requestedPath)) = true ->
  fs_realpath (absolute_of requestedPath) = Some real ->
  isAllowed dirs (normalizePath real) = false ->
  fs_realpath (path_dirname (absolute_of requestedPath)) = Some parent ->
  isAllowed dirs (normalizePath parent) = true ->
  validatePath dirs requestedPath = Done (absolute_of requestedPath).
Proof.
  intros Hname Hreal Hout Hparent Hin.
  unfold validatePath, check_real, check_parent.
  now rewrite Hname, Hreal, Hout, Hparent, Hin.
Qed.

(** X14. What [validatePath] returns has passed these tests: the name of
    the requested path starts with an allowed directory, and either the
    result is the real path of the request and starts with an allowed
    directory, or the result is the request itself, resolved, and the real
    path of its parent directory starts with an allowed directory. *)
Theorem validatePath_returned dirs requestedPath p :
  validatePath dirs requestedPath = Done p ->
  isAllowed dirs (normalizePath (absolute_of requestedPath)) = true
  /\ ((fs_realpath (absolute_of requestedPath) = Some p
       /\ isAllowed dirs (normalizePath p) = true)
      \/ (p = absolute_of requestedPath
          /\ exists parent,
               fs_realpath (path_dirname (absolute_of requestedPath))
               = Some parent
               /\ isAllowed dirs (normalizePath parent) = true)).
Proof.
  unfold validatePath, check_real, check_parent. intros H.
  destruct (isAllowed dirs (normalizePath (absolute_of requestedPath)));
    [|discriminate].
  split; [reflexivity|]. simpl in H.
  destruct (fs_realpath (absolute_of requestedPath)) as [real|] eqn:Hreal.
  - destruct (isAllowed dirs (normalizePath real)) eqn:Hin; simpl in H.
    + left. injection H as <-. auto.
    + right.
      destruct (fs_realpath (path_dirname (absolute_of requestedPath)))
        as [parent|]; [|discriminate].
      destruct (isAllowed dirs (normalizePath parent)) eqn:Hp; simpl in H;
        [|discriminate].
      injection H as <-. eauto.
  - right.
    destruct (fs_realpath (path_dirname (absolute_of requestedPath)))
      as [parent|]; [|discriminate].
    destruct (isAllowed dirs (normalizePath parent)) eqn:Hp; simpl in H;
      [|discriminate].
    injection H as <-. eauto.
Qed.

(** X15. The test on names is a test on prefixes of strings: a path whose
    normalised name and normalised real path merely go on from the name of
    an allowed directory, in whatever way (as in a neighbouring directory
    whose name starts the same), is accepted. *)
Theorem validatePath_accepts_name_extension dirs d s s' requestedPath real :
  d ∈ dirs ->
  normalizePath (absolute_of requestedPath) = (d ++ s)%string ->
  fs_realpath (absolute_of requestedPath) = Some real ->
  normalizePath real = (d ++ s')%string ->
  validatePath dirs requestedPath = Done real.
Proof.
  intros Hd Hname Hreal Hrname.
  unfold validatePath, check_real.
  rewrite Hname, (isAllowed_extension dirs d s Hd), Hreal, Hrname,
    (isAllowed_extension dirs d s' Hd).
  reflexivity.
Qed.

End PathFacts.


(* ===================================================================== *)
(** ** Properties of the tools *)
(* ===================================================================== *)

Section ToolFacts.
Context `{Ext : Externals} `{Node : NodePaths} `{Files : Host}.
Variable dirs : list string.
Import Store Spec Tools.
#[local] Open Scope list_scope.

Example decimal_examples :
  Text.decimal 0 = "0" /\ Text.decimal 7 = "7" /\ Text.decimal 10 = "10"
  /\ Text.decimal 305 = "305".
Proof. repeat split; reflexivity. Qed.

(** X16. The tool [index_file] changes the store in one way only: by
    [addDocument] on a path that [validatePath] returned, with the text
    extracted from that path, which is not empty.  Without a path, with a
    path that is refused, or with no text, it answers with an error and
    the store stays as it was. *)
Theorem index_file_indexes_validated_paths st path file_path st' answer :
  index_file dirs st path file_path = (st', answer) ->
  (st' = st
   /\ exists result, answer = Some result /\ isError result = true)
  \/ exists filePath validPath,
       Text.or_string path file_path = Some filePath
       /\ Paths.validatePath dirs filePath = Done validPath
       /\ extractTextFromFile validPath <> ""
       /\ st' = fst (addDocument st validPath (extractTextFromFile validPath)).
Proof.
  unfold index_file. intros H.
  destruct (Text.or_string path file_path) as [filePath|] eqn:Hp;
    [|left; injection H as <- <-; eauto].
  destruct (Js.truthy filePath); simpl in H;
    [|left; injection H as <- <-; eauto].
  destruct (Paths.validatePath dirs filePath) as [validPath|e] eqn:Hv;
    [|left; injection H as <- <-; eauto].
  destruct (Js.truthy (extractTextFromFile validPath)) eqn:Ht; simpl in H;
    [|left; injection H as <- <-; eauto].
  right. exists filePath, validPath.
  split; [reflexivity|]. split; [exact Hv|].
  split; [destruct (extractTextFromFile validPath); [discriminate | discriminate]|].
  destruct (addDocument st validPath (extractTextFromFile validPath))
    as [s1 [[]|e|]]; injection H as <- <-; reflexivity.
Qed.

Lemma extract_broken_pdf validPath :
  Js.toLowerCase (extname validPath) = ".pdf" ->
  (forall dataBuffer, fs_readFile validPath = Some dataBuffer ->
     pdf_parse dataBuffer = None) ->
  extractTextFromFile validPath
  = ("[PDF file: " ++ path_basename validPath ++ " - Error parsing content]")%string.
Proof.
  intros Hext Hbad. unfold extractTextFromFile. rewrite Hext. simpl.
  destruct (fs_readFile validPath) as [b|]; [|reflexivity].
  now rewrite (Hbad b).
Qed.

(** X17. A PDF that cannot be read or parsed is not reported as a failure:
    [extractTextFromFile] gives the note
    [[PDF file: <name> - Error parsing content]] in place of its text, and
    [index_file], when [addDocument] returns, answers that the file was
    indexed, with that note as what is stored of it. *)
Theorem index_file_indexes_a_note_for_a_broken_pdf
    st filePath validPath st' :
  filePath <> "" ->
  Paths.validatePath dirs filePath = Done validPath ->
  Js.toLowerCase (extname validPath) = ".pdf" ->
  (forall dataBuffer, fs_readFile validPath = Some dataBuffer ->
     pdf_parse dataBuffer = None) ->
  addDocument st validPath
    ("[PDF file: " ++ path_basename validPath ++ " - Error parsing content]")
  = (st', Returned tt) ->
  extractTextFromFile validPath
  = ("[PDF file: " ++ path_basename validPath ++ " - Error parsing content]")%string
  /\ index_file dirs st (Some filePath) None
     = (st', Some (Tool ("Successfully indexed " ++ filePath) false)).
Proof.
  intros Hne Hv Hext Hbad Hadd.
  pose proof (extract_broken_pdf validPath Hext Hbad) as Hx.
  split; [exact Hx|].
  assert (Ht : Js.truthy
                 ("[PDF file: " ++ path_basename validPath
                    ++ " - Error parsing content]") = true) by reflexivity.
  apply truthy_true_iff in Hne.
  unfold index_file, Text.or_string.
  repeat (first [rewrite Hne | rewrite Hv | rewrite Hx | rewrite Ht
                 | rewrite Hadd];
          cbv beta iota zeta; cbn [negb]).
  reflexivity.
Qed.

(** *** The report of [index_directory] *)

Lemma addChunks_outcome chunks : forall st path i,
  snd (addChunks st path i chunks) = Returned tt
  \/ snd (addChunks st path i chunks) = Threw LibraryError.
Proof.
  induction chunks as [|c rest IH]; intros st path i; simpl; [now left|].
  destruct (generateEmbedding st c); [|apply IH].
  destruct (index st); [|apply IH].
  destruct (addPoint _ _ _); [apply IH | now right].
Qed.

(** On an initialised store [addDocument] returns, or throws what the ANN
    library threw. *)
Lemma addDocument_outcome st path content :
  initialized st = true ->
  snd (addDocument st path content) = Returned tt
  \/ snd (addDocument st path content) = Threw LibraryError.
Proof.
  intros Hinit. unfold addDocument. rewrite Hinit. apply addChunks_outcome.
Qed.

(** The line of the report for a file. *)
Lemma index_files_report files : forall st results,
  initialized st = true ->
  exists st' lines,
    index_files st files results = (st', Some (results ++ lines))
    /\ initialized st' = true
    /\ Forall2
         (fun file line =>
            line = ("Successfully indexed " ++ file)%string
            \/ line = ("No text extracted from " ++ file)%string
            \/ line = ("Error indexing " ++ file ++ ": " ++ libraryMessage)%string)
         files lines.
Proof.
  induction files as [|file rest IH]; intros st results Hinit; simpl.
  - exists st, []. rewrite app_nil_r. auto.
  - destruct (Js.truthy (extractTextFromFile file)).
    + pose proof (addDocument_initialized st file (extractTextFromFile file))
        as Hi.
      pose proof (addDocument_outcome st file (extractTextFromFile file) Hinit)
        as Hout.
      destruct (addDocument st file (extractTextFromFile file))
        as [s1 out]; simpl in *.
      destruct Hout as [-> | ->].
      * destruct (IH s1 (results ++ ["Successfully indexed " ++ file]%string))
          as (st' & lines & Hrun & Hi' & Hlines); [congruence|].
        exists st', (("Successfully indexed " ++ file)%string :: lines).
        cbv beta iota zeta.
        rewrite Hrun, <- app_assoc. simpl.
        split; [reflexivity|]. split; [exact Hi'|].
        constructor; [left; reflexivity | exact Hlines].
      * destruct (IH s1 (results
                           ++ ["Error indexing " ++ file ++ ": "
                                 ++ libraryMessage]%string))
          as (st' & lines & Hrun & Hi' & Hlines); [congruence|].
        exists st',
          (("Error indexing " ++ file ++ ": " ++ libraryMessage)%string
             :: lines).
        cbv beta iota zeta delta [message_of_error].
        rewrite Hrun, <- app_assoc. simpl.
        split; [reflexivity|]. split; [exact Hi'|].
        constructor; [right; right; reflexivity | exact Hlines].
    + destruct (IH st (results ++ ["No text extracted from " ++ file]%string))
        as (st' & lines & Hrun & Hi' & Hlines); [exact Hinit|].
      exists st', (("No text extracted from " ++ file)%string :: lines).
      rewrite Hrun, <- app_assoc. simpl.
      split; [reflexivity|]. split; [exact Hi'|].
      constructor; [right; left; reflexivity | exact Hlines].
Qed.

(** X18. [index_directory] gives one line of report for every file that
    is left after the exclusions, in their order, and does not flag an
    error when files fail: a file with no text and a file on which
    [addDocument] throws each get their line, the files after them are
    handled all the same, and the count in the heading is the number of
    all these files, failed ones included. *)
Theorem index_directory_reports_every_file
    st dirPath validPath files extensions excludePatterns :
  initialized st = true ->
  dirPath <> "" ->
  Paths.validatePath dirs dirPath = Done validPath ->
  glob (extension_pattern extensions) validPath = Done files ->
  List.filter (fun file => negb (excluded validPath excludePatterns file)) files
    <> [] ->
  exists st' lines,
    index_directory dirs st (Some dirPath) None None extensions excludePatterns
    = (st',
       Some (Tool
               ("Indexed "
                  ++ Text.decimal
                       (List.length
                          (List.filter
                             (fun file =>
                                negb (excluded validPath excludePatterns file))
                             files))
                  ++ " files:" ++ String Js.LF ""
                  ++ String.concat (String Js.LF "") lines)
               false))
    /\ Forall2
         (fun file line =>
            line = ("Successfully indexed " ++ file)%string
            \/ line = ("No text extracted from " ++ file)%string
            \/ line = ("Error indexing " ++ file ++ ": " ++ libraryMessage)%string)
         (List.filter
            (fun file => negb (excluded validPath excludePatterns file)) files)
         lines.
Proof.
  intros Hinit Hne Hv Hglob Hsome.
  apply truthy_true_iff in Hne.
  destruct (index_files_report
              (List.filter
                 (fun file => negb (excluded validPath excludePatterns file))
                 files) st [] Hinit)
    as (st' & lines & Hrun & _ & Hlines).
  exists st', lines. split; [|exact Hlines].
  assert (Hlen : (List.length
                    (List.filter
                       (fun file =>
                          negb (excluded validPath excludePatterns file))
                       files) =? 0)%nat = false).
  { destruct (List.filter _ files); [congruence | reflexivity]. }
  unfold index_directory, Text.or_string.
  repeat (first [rewrite Hne | rewrite Hv | rewrite Hglob | rewrite Hlen
                 | rewrite Hrun];
          cbv beta iota zeta; cbn [negb]).
  rewrite (Forall2_length _ _ _ Hlines). reflexivity.
Qed.

(** *** The tool [search] *)

(** X19. The tool [search] never asks the store for zero or NaN results:
    a [numResults] that is zero or NaN counts as absent, the next of
    [num_results] and [limit] that is neither is taken, and 5 when there is
    none. *)
Theorem search_tool_count_is_truthy numResults num_results limit :
  Text.truthy_number (chosen_numResults numResults num_results limit) = true
  /\ (Text.truthy_number numResults = true ->
      chosen_numResults numResults num_results limit = numResults)
  /\ (Text.truthy_number numResults = false ->
      num_results = None -> limit = None ->
      chosen_numResults numResults num_results limit = 5%float).
Proof.
  unfold chosen_numResults, Text.or_number.
  split; [|split].
  - destruct (Text.truthy_number numResults) eqn:H1;
      destruct num_results as [a|];
      try destruct (Text.truthy_number a) eqn:H2;
      destruct limit as [b|];
      try destruct (Text.truthy_number b) eqn:H3;
      repeat (cbv beta iota zeta; rewrite ?H1, ?H2, ?H3);
      try reflexivity; assumption.
  - intros H. repeat (rewrite H; cbv beta iota zeta). reflexivity.
  - intros H -> ->. repeat (rewrite H; cbv beta iota zeta). reflexivity.
Qed.

Lemma format_results_defined results : forall index,
  (forall r, r ∈ results -> is_Some (document r)) ->
  exists lines,
    format_results index results = Done lines
    /\ List.length lines = List.length results.
Proof.
  induction results as [|r rest IH]; intros index Hdocs; simpl.
  - exists []. auto.
  - destruct (Hdocs r) as [d Hd]; [left|].
    unfold format_result. rewrite Hd.
    destruct (IH (S index)) as (lines & -> & Hlen);
      [intros r' Hr'; apply Hdocs; now right|].
    eexists. split; [reflexivity | simpl; now rewrite Hlen].
Qed.

End ToolFacts.

Section ToolInvariantFacts.
Context `{Ext : Externals} `{Con : !HnswContract} `{Node : NodePaths}
  `{Files : Host}.
Variable dirs : list string.
Import Store Spec Tools.
#[local] Open Scope list_scope.

(** X20. On a store that keeps the invariant, the tool [search] does not
    fail on a result without document: when [search] returns results for a
    non-empty query, the answer is no error and is made of one formatted
    entry for each result. *)
Theorem search_tool_formats_every_result
    st queryText numResults num_results limit threshold results :
  Inv st ->
  queryText <> "" ->
  search st queryText (chosen_numResults numResults num_results limit)
    threshold = Returned results ->
  results <> [] ->
  exists lines,
    format_results 0 results = Done lines
    /\ List.length lines = List.length results
    /\ search_tool st (Some queryText) None None None numResults num_results
         limit threshold
       = Some (Tool (String.concat (String Js.LF ("---" ++ Js.sep)) lines)
                 false).
Proof.
  intros HI Hne Hs Hres.
  assert (Hdocs : forall r, r ∈ results -> is_Some (document r)).
  { intros r Hr.
    destruct (search_result_origin _ _ _ _ _ Hs r Hr)
      as ((ix & q & found & i & idx & d & Hix & _ & Hk & Hi & _ & _ & Hdoc) & _).
    assert (Hinit : initialized st = true).
    { unfold search in Hs.
      destruct (initialized st); [reflexivity | discriminate]. }
    destruct (Inv_hydrates st ix q _ found idx HI Hinit Hix Hk)
      as (doc & Hdoc' & _).
    { apply list_elem_of_lookup. eauto. }
    rewrite Hdoc, Hdoc'. eauto. }
  destruct (format_results_defined results 0 Hdocs) as (lines & Hf & Hlen).
  exists lines. split; [exact Hf|]. split; [exact Hlen|].
  apply truthy_true_iff in Hne.
  unfold search_tool, Text.or_string.
  repeat (first [rewrite Hne | rewrite Hs | rewrite Hf];
          cbv beta iota zeta; cbn [negb]).
  destruct results as [|r rs]; [congruence | reflexivity].
Qed.

Lemma index_files_Inv files : forall st results,
  Inv st -> Inv (fst (index_files st files results)).
Proof.
  induction files as [|file rest IH]; intros st results HI; simpl; [exact HI|].
  destruct (Js.truthy (extractTextFromFile file)); [|now apply IH].
  pose proof (addDocument_Inv st file (extractTextFromFile file) HI) as HI'.
  destruct (addDocument st file (extractTextFromFile file)) as [s1 [[]|e|]];
    simpl in *; [now apply IH | now apply IH | exact HI'].
Qed.

(** X21. The tools keep catalog and index in step: after [index_file],
    [index_directory] and [clear_index], whatever they answer, the store
    keeps the invariant that the document at position [i] has the id [i]
    and its vector and that the labels of the index are the positions of
    the catalog. *)
Theorem tools_keep_the_invariant st :
  Inv st ->
  (forall path file_path, Inv (fst (index_file dirs st path file_path)))
  /\ (forall path dir_path directory extensions excludePatterns,
        Inv (fst (index_directory dirs st path dir_path directory extensions
                    excludePatterns)))
  /\ Inv (fst (clear_index st)).
Proof.
  intros HI. split; [|split].
  - intros path file_path. unfold index_file.
    destruct (Text.or_string path file_path) as [filePath|]; [|exact HI].
    destruct (negb (Js.truthy filePath)); [exact HI|].
    destruct (Paths.validatePath dirs filePath) as [validPath|e]; [|exact HI].
    destruct (negb (Js.truthy (extractTextFromFile validPath))); [exact HI|].
    pose proof (addDocument_Inv st validPath (extractTextFromFile validPath) HI)
      as HI'.
    destruct (addDocument st validPath (extractTextFromFile validPath))
      as [s1 [[]|e|]]; exact HI'.
  - intros path dir_path directory extensions excludePatterns.
    unfold index_directory.
    destruct (Text.or_string (Text.or_string path dir_path) directory)
      as [dirPath|]; [|exact HI].
    destruct (negb (Js.truthy dirPath)); [exact HI|].
    destruct (Paths.validatePath dirs dirPath) as [validPath|e]; [|exact HI].
    destruct (glob _ validPath) as [files|e]; [|exact HI].
    destruct (List.length _ =? 0)%nat; [exact HI|].
    pose proof (index_files_Inv
                  (List.filter
                     (fun file =>
                        negb (excluded validPath excludePatterns file)) files)
                  st [] HI) as HI'.
    destruct (index_files st _ []) as [s1 [results|]]; exact HI'.
  - apply clear_Inv.
Qed.

End ToolInvariantFacts.


(* ===================================================================== *)
(** ** Properties of the store on the FAISS index *)
(* ===================================================================== *)

Section FaissFacts.
Context `{Lib : FaissLib}.
Import FaissStore.
#[local] Open Scope list_scope.

Lemma faiss_addChunks_gap chunks : forall st path i gap,
  behind gap st ->
  (snd (addChunks st path i chunks) = Returned tt
   /\ behind gap (fst (addChunks st path i chunks)))
  \/ (snd (addChunks st path i chunks) = Threw LibraryError
      /\ behind (S gap) (fst (addChunks st path i chunks))).
Proof.
  induction chunks as [|c rest IH]; intros st path i gap Hb; simpl;
    [left; auto|].
  destruct (generateEmbedding st c) as [e|]; [|now apply IH].
  destruct Hb as (ix & Hix & Hlen). rewrite Hix.
  destruct (faiss_add ix e) as [ix'|] eqn:Hadd.
  - apply IH. exists ix'. simpl. split; [reflexivity|].
    rewrite length_app, (ntotal_add _ _ _ Hadd), Hlen. simpl. lia.
  - right. simpl. split; [reflexivity|].
    exists ix. split; [reflexivity|]. simpl.
    rewrite length_app, Hlen. simpl. lia.
Qed.

Lemma faiss_addDocument_step_lemma st path content gap :
  initialized st = true ->
  behind gap st ->
  (snd (addDocument st path content) = Returned tt
   /\ behind gap (fst (addDocument st path content)))
  \/ (snd (addDocument st path content) = Threw LibraryError
      /\ behind (S gap) (fst (addDocument st path content))).
Proof.
  intros Hinit Hb. unfold addDocument. rewrite Hinit.
  apply faiss_addChunks_gap. exact Hb.
Qed.

(** X22. In the version of the server on the FAISS index, [addDocument]
    pushes the document before it adds the vector.  On an initialised
    store, when the call returns the catalog is as far ahead of the index
    as before, and in step with it if it was; when the call throws, the
    catalog has got one document more ahead of the index: the document
    whose vector the library refused stays in the catalog. *)
Theorem faiss_addDocument_step st path content gap :
  initialized st = true ->
  behind gap st ->
  (snd (addDocument st path content) = Returned tt
   /\ behind gap (fst (addDocument st path content)))
  \/ (snd (addDocument st path content) = Threw LibraryError
      /\ behind (S gap) (fst (addDocument st path content))).
Proof.
  exact (faiss_addDocument_step_lemma st path content gap).
Qed.

Lemma faiss_addChunks_initialized chunks : forall st path i,
  initialized (fst (addChunks st path i chunks)) = initialized st.
Proof.
  induction chunks as [|c rest IH]; intros st path i; simpl; [reflexivity|].
  destruct (generateEmbedding st c) as [e|]; [|apply IH].
  destruct (index st) as [ix|].
  - destruct (faiss_add ix e); [|reflexivity].
    rewrite IH. reflexivity.
  - rewrite IH. reflexivity.
Qed.

(** X23. There, a gap between catalog and index does not close again: once
    the catalog of an initialised store is [gap] documents ahead of the
    index, it is at least as far ahead after any run of [addDocument]
    calls, so from the first refused vector on, the position of a vector
    in the index is no longer the id of its document; [clear] brings the
    two in step again. *)
Theorem faiss_gap_stays st gap (calls : list (string * string)) :
  initialized st = true ->
  behind gap st ->
  (exists gap', (gap <= gap')%nat /\ behind gap' (addDocuments st calls))
  /\ behind 0 (clear (addDocuments st calls)).
Proof.
  intros Hinit Hb.
  assert (Hrun : exists gap',
            (gap <= gap')%nat /\ behind gap' (addDocuments st calls)).
  { revert st gap Hinit Hb.
    induction calls as [|[path content] calls IH]; intros st gap Hinit Hb;
      simpl.
    - exists gap. auto.
    - assert (Hinit' : initialized (fst (addDocument st path content)) = true).
      { unfold addDocument. rewrite Hinit.
        rewrite faiss_addChunks_initialized. reflexivity. }
      destruct (faiss_addDocument_step_lemma st path content gap Hinit Hb)
        as [[_ Hb'] | [_ Hb']].
      + apply (IH _ gap Hinit' Hb').
      + destruct (IH _ (S gap) Hinit' Hb') as (gap' & Hle & Hb'').
        exists gap'. split; [lia | exact Hb'']. }
  split; [exact Hrun|].
  destruct Hrun as (gap' & _ & ix & Hix & _).
  unfold behind, clear. rewrite Hix. simpl.
  eexists. split; [reflexivity|]. now rewrite ntotal_new.
Qed.

End FaissFacts.


(* ===================================================================== *)
(** ** The further properties on the examples *)
(* ===================================================================== *)

Section MoreWitnesses.
Import Js Chunker Paragraphs Double Fixtures HostFixture FaissFixture.
#[local] Open Scope list_scope.

Lemma chunk_length_bound_witness :
  (0 <= 6)%Z
  /\ ((forall c, c ∈ chunkText three_paragraphs 6 ->
         (Z.of_nat (String.length c) <= 6 + 2)%Z
         \/ (c ∈ split_paragraphs three_paragraphs
             /\ (6 < Z.of_nat (String.length c))%Z))
      /\ ((forall p, p ∈ split_paragraphs three_paragraphs ->
             (Z.of_nat (String.length p) <= 6)%Z) ->
          forall c, c ∈ chunkText three_paragraphs 6 ->
            (Z.of_nat (String.length c) <= 6 + 2)%Z)).
Proof.
  assert (H : (0 <= 6)%Z) by lia.
  split; [exact H|]. exact (chunk_length_bound three_paragraphs 6 H).
Defined.

Lemma chunks_are_not_empty_witness :
  (1 <= 6)%Z
  /\ "P3." ∈ chunkText three_paragraphs 6
  /\ "P3." <> "".
Proof.
  assert (H1 : (1 <= 6)%Z) by lia.
  assert (H2 : "P3." ∈ chunkText three_paragraphs 6)
    by (vm_compute; right; left).
  split; [exact H1|]. split; [exact H2|].
  exact (chunks_are_not_empty three_paragraphs 6 "P3." H1 H2).
Defined.

Lemma chunkText_single_paragraph_witness :
  has_separator two_lines = false
  /\ ((two_lines <> "" -> (Z.of_nat (String.length two_lines) <= 8)%Z ->
       chunkText two_lines 8 = [two_lines])
      /\ ((8 < Z.of_nat (String.length two_lines))%Z ->
          chunkText two_lines 8 = [substring0 8 two_lines])).
Proof.
  assert (H : has_separator two_lines = false) by reflexivity.
  split; [exact H|]. exact (chunkText_single_paragraph two_lines 8 H).
Defined.

(** A text of two lines under a limit of eight: the chunk is [first li]. *)
Example two_lines_cut : chunkText two_lines 8 = ["first li"].
Proof. reflexivity. Qed.

Lemma chunks_keep_the_paragraphs_witness :
  Forall (fits 6) (split_paragraphs three_paragraphs)
  /\ String.concat sep (chunkText three_paragraphs 6)
     = String.concat sep (split_paragraphs three_paragraphs).
Proof.
  assert (H : Forall (fits 6) (split_paragraphs three_paragraphs)).
  { repeat constructor; try discriminate; simpl; lia. }
  split; [exact H|]. exact (chunks_keep_the_paragraphs three_paragraphs 6 H).
Defined.

(** *** The store *)

Lemma addDocument_stores_the_embedded_chunks_witness :
  Store.addDocument (Store.ready Double.pipeline) "/docs/c.txt"
    Double.three_chunks
  = (fst (Store.addDocument (Store.ready Double.pipeline) "/docs/c.txt"
            Double.three_chunks),
     Returned tt)
  /\ exists new,
       Store.documents
         (fst (Store.addDocument (Store.ready Double.pipeline) "/docs/c.txt"
                 Double.three_chunks))
       = Store.documents (Store.ready Double.pipeline) ++ new
       /\ map text new
          = filter
              (fun c =>
                 is_Some
                   (Store.generateEmbedding (Store.ready Double.pipeline) c))
              (chunkText Double.three_chunks defaultMaxChunkSize).
Proof.
  assert (H : Store.addDocument (Store.ready Double.pipeline) "/docs/c.txt"
                Double.three_chunks
              = (fst (Store.addDocument (Store.ready Double.pipeline)
                        "/docs/c.txt" Double.three_chunks),
                 Returned tt))
    by (vm_compute; reflexivity).
  split; [exact H|].
  exact (addDocument_stores_the_embedded_chunks
           (Store.ready Double.pipeline) "/docs/c.txt" Double.three_chunks _ H).
Defined.

Lemma addDocument_counts_a_file_it_does_not_store_witness :
  Store.initialized Double.store_one = true
  /\ (forall c, c ∈ chunkText "#nothing to embed" defaultMaxChunkSize ->
        Store.generateEmbedding Double.store_one c = None)
  /\ (Store.addDocument Double.store_one "/docs/x.md" "#nothing to embed"
      = (Store.with_fileTypes
           (Store.bump (Js.toLowerCase (extname "/docs/x.md"))
              (Store.fileTypes Double.store_one))
           Double.store_one,
         Returned tt)
      /\ Store.getIndexedFiles
           (fst (Store.addDocument Double.store_one "/docs/x.md"
                   "#nothing to embed"))
         = Store.getIndexedFiles Double.store_one
      /\ documentCount
           (Store.getStats
              (fst (Store.addDocument Double.store_one "/docs/x.md"
                      "#nothing to embed")))
         = documentCount (Store.getStats Double.store_one)
      /\ statsFileTypes
           (Store.getStats
              (fst (Store.addDocument Double.store_one "/docs/x.md"
                      "#nothing to embed")))
           !! Js.toLowerCase (extname "/docs/x.md")
         = Some
             (default 0%nat
                (Store.fileTypes Double.store_one
                   !! Js.toLowerCase (extname "/docs/x.md")) + 1)%nat).
Proof.
  assert (H1 : Store.initialized Double.store_one = true) by reflexivity.
  assert (H2 : forall c,
             c ∈ chunkText "#nothing to embed" defaultMaxChunkSize ->
             Store.generateEmbedding Double.store_one c = None).
  { intros c Hc. vm_compute in Hc.
    apply list_elem_of_singleton in Hc. subst c. reflexivity. }
  split; [exact H1|]. split; [exact H2|].
  exact (addDocument_counts_a_file_it_does_not_store Double.store_one
           "/docs/x.md" "#nothing to embed" H1 H2).
Defined.

Lemma statistics_count_the_calls_witness :
  Store.initialized Double.store_one = true
  /\ (Histogram.total
        (Store.fileTypes
           (Store.addDocuments Double.store_one
              [("/docs/c.txt", Double.three_chunks);
               ("/docs/x.md", "#nothing to embed")]))
      = (Histogram.total (Store.fileTypes Double.store_one)
         + List.length
             [("/docs/c.txt", Double.three_chunks);
              ("/docs/x.md", "#nothing to embed")])%nat
      /\ Histogram.total
           (Store.fileTypes
              (Store.addDocuments (Store.clear Double.store_one)
                 [("/docs/c.txt", Double.three_chunks);
                  ("/docs/x.md", "#nothing to embed")]))
         = List.length
             [("/docs/c.txt", Double.three_chunks);
              ("/docs/x.md", "#nothing to embed")]).
Proof.
  assert (H : Store.initialized Double.store_one = true) by reflexivity.
  split; [exact H|].
  exact (statistics_count_the_calls Double.store_one
           [("/docs/c.txt", Double.three_chunks);
            ("/docs/x.md", "#nothing to embed")] H).
Defined.

Lemma listed_files_are_counted_witness :
  "/docs/b.txt"
    ∈ Store.getIndexedFiles
        (Store.addDocuments (Store.clear Double.store_one)
           [("/docs/b.txt", Double.two_chunks)])
  /\ exists n,
       statsFileTypes
         (Store.getStats
            (Store.addDocuments (Store.clear Double.store_one)
               [("/docs/b.txt", Double.two_chunks)]))
         !! Js.toLowerCase (extname "/docs/b.txt") = Some (S n).
Proof.
  assert (H : "/docs/b.txt"
                ∈ Store.getIndexedFiles
                    (Store.addDocuments (Store.clear Double.store_one)
                       [("/docs/b.txt", Double.two_chunks)]))
    by (vm_compute; left).
  split; [exact H|].
  exact (listed_files_are_counted Double.store_one
           [("/docs/b.txt", Double.two_chunks)] "/docs/b.txt" H).
Defined.

(** *** The paths *)

Example validate_plain_file :
  Paths.validatePath allowed "/data/docs/a.txt" = Done "/data/docs/a.txt".
Proof. reflexivity. Qed.

Example validate_home :
  Paths.expandHome "~/notes" = "/home/u/notes"
  /\ Paths.expandHome "~other/notes" = "~other/notes".
Proof. split; reflexivity. Qed.

Lemma validatePath_errors_witness :
  Paths.validatePath allowed "/etc/passwd"
  = Raised
      (Message
         "Access denied - path outside allowed directories: /etc/passwd not in /data/docs")
  /\ ((Message
         "Access denied - path outside allowed directories: /etc/passwd not in /data/docs"
       = Message
           ("Access denied - path outside allowed directories: "
              ++ Paths.absolute_of "/etc/passwd"
              ++ " not in " ++ String.concat ", " allowed)
       \/ Message
            "Access denied - path outside allowed directories: /etc/passwd not in /data/docs"
          = Message
              ("Parent directory does not exist: "
                 ++ path_dirname (Paths.absolute_of "/etc/passwd")))
      /\ Message
           "Access denied - path outside allowed directories: /etc/passwd not in /data/docs"
         <> FsError
      /\ Message
           "Access denied - path outside allowed directories: /etc/passwd not in /data/docs"
         <> Message
              "Access denied - symlink target outside allowed directories"
      /\ Message
           "Access denied - path outside allowed directories: /etc/passwd not in /data/docs"
         <> Message
              "Access denied - parent directory outside allowed directories").
Proof.
  assert (H : Paths.validatePath allowed "/etc/passwd"
              = Raised
                  (Message
                     "Access denied - path outside allowed directories: /etc/passwd not in /data/docs"))
    by reflexivity.
  split; [exact H|].
  exact (validatePath_errors allowed "/etc/passwd" _ H).
Defined.

Lemma validatePath_accepts_link_to_outside_witness :
  Paths.isAllowed allowed
    (Paths.normalizePath (Paths.absolute_of "/data/docs/link")) = true
  /\ fs_realpath (Paths.absolute_of "/data/docs/link") = Some "/etc/passwd"
  /\ Paths.isAllowed allowed (Paths.normalizePath "/etc/passwd") = false
  /\ fs_realpath (path_dirname (Paths.absolute_of "/data/docs/link"))
     = Some "/data/docs"
  /\ Paths.isAllowed allowed (Paths.normalizePath "/data/docs") = true
  /\ Paths.validatePath allowed "/data/docs/link"
     = Done (Paths.absolute_of "/data/docs/link").
Proof.
  assert (H1 : Paths.isAllowed allowed
                 (Paths.normalizePath (Paths.absolute_of "/data/docs/link"))
               = true) by reflexivity.
  assert (H2 : fs_realpath (Paths.absolute_of "/data/docs/link")
               = Some "/etc/passwd") by reflexivity.
  assert (H3 : Paths.isAllowed allowed (Paths.normalizePath "/etc/passwd")
               = false) by reflexivity.
  assert (H4 : fs_realpath (path_dirname (Paths.absolute_of "/data/docs/link"))
               = Some "/data/docs") by reflexivity.
  assert (H5 : Paths.isAllowed allowed (Paths.normalizePath "/data/docs")
               = true) by reflexivity.
  split; [exact H1|]. split; [exact H2|]. split; [exact H3|].
  split; [exact H4|]. split; [exact H5|].
  exact (validatePath_accepts_link_to_outside allowed "/data/docs/link"
           "/etc/passwd" "/data/docs" H1 H2 H3 H4 H5).
Defined.

Lemma validatePath_returned_witness :
  Paths.validatePath allowed "/data/docs/a.txt" = Done "/data/docs/a.txt"
  /\ (Paths.isAllowed allowed
        (Paths.normalizePath (Paths.absolute_of "/data/docs/a.txt")) = true
      /\ ((fs_realpath (Paths.absolute_of "/data/docs/a.txt")
           = Some "/data/docs/a.txt"
           /\ Paths.isAllowed allowed (Paths.normalizePath "/data/docs/a.txt")
              = true)
          \/ ("/data/docs/a.txt" = Paths.absolute_of "/data/docs/a.txt"
              /\ exists parent,
                   fs_realpath
                     (path_dirname (Paths.absolute_of "/data/docs/a.txt"))
                   = Some parent
                   /\ Paths.isAllowed allowed (Paths.normalizePath parent)
                      = true))).
Proof.
  assert (H : Paths.validatePath allowed "/data/docs/a.txt"
              = Done "/data/docs/a.txt") by reflexivity.
  split; [exact H|].
  exact (validatePath_returned allowed "/data/docs/a.txt" _ H).
Defined.

Lemma validatePath_accepts_name_extension_witness :
  "/data/docs" ∈ allowed
  /\ Paths.normalizePath (Paths.absolute_of "/data/docs-private/s.txt")
     = ("/data/docs" ++ "-private/s.txt")%string
  /\ fs_realpath (Paths.absolute_of "/data/docs-private/s.txt")
     = Some "/data/docs-private/s.txt"
  /\ Paths.normalizePath "/data/docs-private/s.txt"
     = ("/data/docs" ++ "-private/s.txt")%string
  /\ Paths.validatePath allowed "/data/docs-private/s.txt"
     = Done "/data/docs-private/s.txt".
Proof.
  assert (H1 : "/data/docs" ∈ allowed) by left.
  assert (H2 : Paths.normalizePath
                 (Paths.absolute_of "/data/docs-private/s.txt")
               = ("/data/docs" ++ "-private/s.txt")%string) by reflexivity.
  assert (H3 : fs_realpath (Paths.absolute_of "/data/docs-private/s.txt")
               = Some "/data/docs-private/s.txt") by reflexivity.
  assert (H4 : Paths.normalizePath "/data/docs-private/s.txt"
               = ("/data/docs" ++ "-private/s.txt")%string) by reflexivity.
  split; [exact H1|]. split; [exact H2|]. split; [exact H3|].
  split; [exact H4|].
  exact (validatePath_accepts_name_extension allowed "/data/docs"
           "-private/s.txt" "-private/s.txt" "/data/docs-private/s.txt"
           "/data/docs-private/s.txt" H1 H2 H3 H4).
Defined.

(** *** The tools *)

Example index_file_plain :
  snd (Tools.index_file allowed (Store.ready pipeline)
         (Some "/data/docs/a.txt") None)
  = Some (Tool "Successfully indexed /data/docs/a.txt" false).
Proof. vm_compute. reflexivity. Qed.

Example index_file_empty_text :
  Tools.index_file allowed (Store.ready pipeline) None
    (Some "/data/docs/empty.txt")
  = (Store.ready pipeline,
     Some (Tool "Error: Could not extract text from /data/docs/empty.txt" true)).
Proof. vm_compute. reflexivity. Qed.

Example index_file_link :
  snd (Tools.index_file allowed (Store.ready pipeline)
         (Some "/data/docs/link") None)
  = Some (Tool "Error: Could not extract text from /data/docs/link" true).
Proof. vm_compute. reflexivity. Qed.

Lemma index_file_indexes_validated_paths_witness :
  Tools.index_file allowed (Store.ready pipeline) (Some "/data/docs/a.txt") None
  = (fst (Tools.index_file allowed (Store.ready pipeline)
            (Some "/data/docs/a.txt") None),
     snd (Tools.index_file allowed (Store.ready pipeline)
            (Some "/data/docs/a.txt") None))
  /\ ((fst (Tools.index_file allowed (Store.ready pipeline)
             (Some "/data/docs/a.txt") None)
       = Store.ready pipeline
       /\ exists result,
            snd (Tools.index_file allowed (Store.ready pipeline)
                   (Some "/data/docs/a.txt") None)
            = Some result
            /\ isError result = true)
      \/ exists filePath validPath,
           Text.or_string (Some "/data/docs/a.txt") None = Some filePath
           /\ Paths.validatePath allowed filePath = Done validPath
           /\ Tools.extractTextFromFile validPath <> ""
           /\ fst (Tools.index_file allowed (Store.ready pipeline)
                     (Some "/data/docs/a.txt") None)
              = fst (Store.addDocument (Store.ready pipeline) validPath
                       (Tools.extractTextFromFile validPath))).
Proof.
  assert (H : Tools.index_file allowed (Store.ready pipeline)
                (Some "/data/docs/a.txt") None
              = (fst (Tools.index_file allowed (Store.ready pipeline)
                        (Some "/data/docs/a.txt") None),
                 snd (Tools.index_file allowed (Store.ready pipeline)
                        (Some "/data/docs/a.txt") None)))
    by (apply surjective_pairing).
  split; [exact H|].
  exact (index_file_indexes_validated_paths allowed (Store.ready pipeline)
           (Some "/data/docs/a.txt") None _ _ H).
Defined.

Lemma index_file_indexes_a_note_for_a_broken_pdf_witness :
  "/data/docs/broken.pdf" <> ""
  /\ Paths.validatePath allowed "/data/docs/broken.pdf"
     = Done "/data/docs/broken.pdf"
  /\ Js.toLowerCase (extname "/data/docs/broken.pdf") = ".pdf"
  /\ (forall dataBuffer, fs_readFile "/data/docs/broken.pdf" = Some dataBuffer ->
        pdf_parse dataBuffer = None)
  /\ Store.addDocument (Store.ready pipeline) "/data/docs/broken.pdf"
       ("[PDF file: " ++ path_basename "/data/docs/broken.pdf"
          ++ " - Error parsing content]")
     = (fst (Store.addDocument (Store.ready pipeline) "/data/docs/broken.pdf"
               ("[PDF file: " ++ path_basename "/data/docs/broken.pdf"
                  ++ " - Error parsing content]")),
        Returned tt)
  /\ (Tools.extractTextFromFile "/data/docs/broken.pdf"
      = ("[PDF file: " ++ path_basename "/data/docs/broken.pdf"
           ++ " - Error parsing content]")%string
      /\ Tools.index_file allowed (Store.ready pipeline)
           (Some "/data/docs/broken.pdf") None
         = (fst (Store.addDocument (Store.ready pipeline)
                   "/data/docs/broken.pdf"
                   ("[PDF file: " ++ path_basename "/data/docs/broken.pdf"
                      ++ " - Error parsing content]")),
            Some (Tool ("Successfully indexed " ++ "/data/docs/broken.pdf")
                    false))).
Proof.
  assert (H1 : "/data/docs/broken.pdf" <> "") by discriminate.
  assert (H2 : Paths.validatePath allowed "/data/docs/broken.pdf"
               = Done "/data/docs/broken.pdf") by reflexivity.
  assert (H3 : Js.toLowerCase (extname "/data/docs/broken.pdf") = ".pdf")
    by reflexivity.
  assert (H4 : forall dataBuffer,
             fs_readFile "/data/docs/broken.pdf" = Some dataBuffer ->
             pdf_parse dataBuffer = None) by reflexivity.
  assert (H5 : Store.addDocument (Store.ready pipeline) "/data/docs/broken.pdf"
                 ("[PDF file: " ++ path_basename "/data/docs/broken.pdf"
                    ++ " - Error parsing content]")
               = (fst (Store.addDocument (Store.ready pipeline)
                         "/data/docs/broken.pdf"
                         ("[PDF file: " ++ path_basename "/data/docs/broken.pdf"
                            ++ " - Error parsing content]")),
                  Returned tt)) by (vm_compute; reflexivity).
  split; [exact H1|]. split; [exact H2|]. split; [exact H3|].
  split; [exact H4|]. split; [exact H5|].
  exact (index_file_indexes_a_note_for_a_broken_pdf allowed
           (Store.ready pipeline) "/data/docs/broken.pdf"
           "/data/docs/broken.pdf" _ H1 H2 H3 H4 H5).
Defined.

(** The directory of the examples: one file indexed, one without text, one
    whose only chunk gets no embedding and counts as indexed all the
    same. *)
Example index_directory_report :
  snd (Tools.index_directory allowed (Store.ready pipeline) (Some "/data/docs")
         None None [".txt"; ".pdf"] [])
  = Some (Tool
            ("Indexed 3 files:" ++ String LF ""
               ++ "Successfully indexed /data/docs/a.txt" ++ String LF ""
               ++ "No text extracted from /data/docs/empty.txt" ++ String LF ""
               ++ "Successfully indexed /data/docs/b.txt")
            false).
Proof. vm_compute. reflexivity. Qed.

Example default_extension_pattern :
  Tools.extension_pattern [".txt"; ".pdf"] = "**/*@(txt|pdf)"
  /\ Tools.extension_pattern ["txt"; "pdf"] = "**/*@(txt|pdf)".
Proof. split; reflexivity. Qed.

Lemma index_directory_reports_every_file_witness :
  Store.initialized (Store.ready pipeline) = true
  /\ "/data/docs" <> ""
  /\ Paths.validatePath allowed "/data/docs" = Done "/data/docs"
  /\ glob (Tools.extension_pattern [".txt"; ".pdf"]) "/data/docs"
     = Done example_files
  /\ List.filter (fun file => negb (Tools.excluded "/data/docs" [] file))
       example_files <> []
  /\ exists st' lines,
       Tools.index_directory allowed (Store.ready pipeline) (Some "/data/docs")
         None None [".txt"; ".pdf"] []
       = (st',
          Some (Tool
                  ("Indexed "
                     ++ Text.decimal
                          (List.length
                             (List.filter
                                (fun file =>
                                   negb (Tools.excluded "/data/docs" [] file))
                                example_files))
                     ++ " files:" ++ String LF ""
                     ++ String.concat (String LF "") lines)
                  false))
       /\ Forall2
            (fun file line =>
               line = ("Successfully indexed " ++ file)%string
               \/ line = ("No text extracted from " ++ file)%string
               \/ line
                  = ("Error indexing " ++ file ++ ": " ++ libraryMessage)%string)
            (List.filter
               (fun file => negb (Tools.excluded "/data/docs" [] file))
               example_files)
            lines.
Proof.
  assert (H1 : Store.initialized (Store.ready pipeline) = true) by reflexivity.
  assert (H2 : "/data/docs" <> "") by discriminate.
  assert (H3 : Paths.validatePath allowed "/data/docs" = Done "/data/docs")
    by reflexivity.
  assert (H4 : glob (Tools.extension_pattern [".txt"; ".pdf"]) "/data/docs"
               = Done example_files) by reflexivity.
  assert (H5 : List.filter
                 (fun file => negb (Tools.excluded "/data/docs" [] file))
                 example_files <> []) by discriminate.
  split; [exact H1|]. split; [exact H2|]. split; [exact H3|].
  split; [exact H4|]. split; [exact H5|].
  exact (index_directory_reports_every_file allowed (Store.ready pipeline)
           "/data/docs" "/data/docs" example_files [".txt"; ".pdf"] []
           H1 H2 H3 H4 H5).
Defined.

Example search_tool_zero_results_means_five :
  Tools.chosen_numResults 0%float None None = 5%float
  /\ Tools.chosen_numResults 0%float (Some 3%float) None = 3%float
  /\ Tools.chosen_numResults 2%float (Some 3%float) None = 2%float.
Proof. repeat split; reflexivity. Qed.

Lemma search_tool_formats_every_result_witness :
  Spec.Inv store_one
  /\ "hello world!" <> ""
  /\ Store.search store_one "hello world!"
       (Tools.chosen_numResults 5%float None None) 0.25%float
     = Returned [result_one]
  /\ [result_one] <> []
  /\ exists lines,
       Tools.format_results 0 [result_one] = Done lines
       /\ List.length lines = List.length [result_one]
       /\ Tools.search_tool store_one (Some "hello world!") None None None
            5%float None None 0.25%float
          = Some (Tool (String.concat (String LF ("---" ++ sep)) lines) false).
Proof.
  assert (H2 : "hello world!" <> "") by discriminate.
  assert (H3 : Store.search store_one "hello world!"
                 (Tools.chosen_numResults 5%float None None) 0.25%float
               = Returned [result_one]) by (vm_compute; reflexivity).
  assert (H4 : [result_one] <> []) by discriminate.
  split; [exact Inv_store_one|]. split; [exact H2|]. split; [exact H3|].
  split; [exact H4|].
  exact (search_tool_formats_every_result store_one "hello world!" 5%float
           None None 0.25%float [result_one] Inv_store_one H2 H3 H4).
Defined.

Lemma tools_keep_the_invariant_witness :
  Spec.Inv store_one
  /\ ((forall path file_path,
         Spec.Inv (fst (Tools.index_file allowed store_one path file_path)))
      /\ (forall path dir_path directory extensions excludePatterns,
            Spec.Inv
              (fst (Tools.index_directory allowed store_one path dir_path
                      directory extensions excludePatterns)))
      /\ Spec.Inv (fst (Tools.clear_index store_one))).
Proof.
  split; [exact Inv_store_one|].
  exact (tools_keep_the_invariant allowed store_one Inv_store_one).
Defined.

(** *** The store on the FAISS index *)

Lemma faiss_addDocument_step_witness :
  FaissStore.initialized (FaissStore.ready pipeline384) = true
  /\ FaissStore.behind 0 (FaissStore.ready pipeline384)
  /\ ((snd (FaissStore.addDocument (FaissStore.ready pipeline384)
              "/docs/a.txt" "!short") = Returned tt
       /\ FaissStore.behind 0
            (fst (FaissStore.addDocument (FaissStore.ready pipeline384)
                    "/docs/a.txt" "!short")))
      \/ (snd (FaissStore.addDocument (FaissStore.ready pipeline384)
                 "/docs/a.txt" "!short") = Threw LibraryError
          /\ FaissStore.behind 1
               (fst (FaissStore.addDocument (FaissStore.ready pipeline384)
                       "/docs/a.txt" "!short")))).
Proof.
  assert (H1 : FaissStore.initialized (FaissStore.ready pipeline384) = true)
    by reflexivity.
  assert (H2 : FaissStore.behind 0 (FaissStore.ready pipeline384))
    by (eexists; split; reflexivity).
  split; [exact H1|]. split; [exact H2|].
  exact (faiss_addDocument_step (FaissStore.ready pipeline384) "/docs/a.txt"
           "!short" 0 H1 H2).
Defined.

(** The refused vector leaves its document in the catalog. *)
Example faiss_refused_vector :
  snd (FaissStore.addDocument (FaissStore.ready pipeline384) "/docs/a.txt"
         "!short") = Threw LibraryError
  /\ map text
       (FaissStore.documents
          (fst (FaissStore.addDocument (FaissStore.ready pipeline384)
                  "/docs/a.txt" "!short"))) = ["!short"]
  /\ option_map ntotal
       (FaissStore.index
          (fst (FaissStore.addDocument (FaissStore.ready pipeline384)
                  "/docs/a.txt" "!short"))) = Some 0%nat.
Proof. repeat split; vm_compute; reflexivity. Qed.

Lemma faiss_gap_stays_witness :
  FaissStore.initialized
    (fst (FaissStore.addDocument (FaissStore.ready pipeline384) "/docs/a.txt"
            "!short")) = true
  /\ FaissStore.behind 1
       (fst (FaissStore.addDocument (FaissStore.ready pipeline384)
               "/docs/a.txt" "!short"))
  /\ ((exists gap',
         (1 <= gap')%nat
         /\ FaissStore.behind gap'
              (FaissStore.addDocuments
                 (fst (FaissStore.addDocument (FaissStore.ready pipeline384)
                         "/docs/a.txt" "!short"))
                 [("/docs/b.txt", "fine")]))
      /\ FaissStore.behind 0
           (FaissStore.clear
              (FaissStore.addDocuments
                 (fst (FaissStore.addDocument (FaissStore.ready pipeline384)
                         "/docs/a.txt" "!short"))
                 [("/docs/b.txt", "fine")]))).
Proof.
  assert (H1 : FaissStore.initialized
                 (fst (FaissStore.addDocument (FaissStore.ready pipeline384)
                         "/docs/a.txt" "!short")) = true)
    by (vm_compute; reflexivity).
  assert (H2 : FaissStore.behind 1
                 (fst (FaissStore.addDocument (FaissStore.ready pipeline384)
                         "/docs/a.txt" "!short")))
    by (eexists; split; vm_compute; reflexivity).
  split; [exact H1|]. split; [exact H2|].
  exact (faiss_gap_stays
           (fst (FaissStore.addDocument (FaissStore.ready pipeline384)
                   "/docs/a.txt" "!short"))
           1 [("/docs/b.txt", "fine")] H1 H2).
Defined.

End MoreWitnesses.
